(** * tools/tdd_tools.py: the file-writing helpers and the shell wrapper

    A shallow embedding of [_ensure_dirs], [write_test_file],
    [write_code_file] and [run_shell_command], and of the simulated
    steps [define_task], [run_tests], [analyze_failure] and
    [refactor_code], over a small model of the
    parts of the Python runtime they call: [str] slicing, [os.path.join],
    [os.makedirs], [open(..., "w")], [print] and [subprocess.run].

    The paths are POSIX paths. Python [str] is modelled by [string] (one
    [ascii] per character), a result dictionary [Dict[str, Any]] whose values are all strings by
    [gmap string string], and a function with effects by a state and
    exception monad over the world the process runs in. *)

From stdpp Require Import base option list strings gmap pretty.
From Stdlib Require Import Ascii ZArith Lia.

Local Open Scope string_scope.
Local Open Scope Z_scope.
Local Open Scope list_scope.

(** ** Python strings *)

Module PyStr.

(** [len(s)] *)
Definition len (s : string) : Z := Z.of_nat (String.length s).

(** The bound of a slice after Python's adjustment: a negative index
    counts from the end, and the result is clamped to [0, len]. *)
Definition clamp (n i : Z) : Z :=
  if i <? 0 then Z.max 0 (i + n) else Z.min i n.

(** [s[start:stop]] with step 1; [None] stands for an omitted bound. *)
Definition slice (s : string) (start stop : option Z) : string :=
  let n := len s in
  let lo := from_option (clamp n) 0 start in
  let hi := from_option (clamp n) n stop in
  String.substring (Z.to_nat lo) (Z.to_nat (hi - lo)) s.

(** [s.startswith(t)] *)
Definition startswith (s t : string) : bool := String.prefix t s.

(** [s.endswith(t)] *)
Definition endswith (s t : string) : bool :=
  let n := String.length s in
  let k := String.length t in
  (k <=? n)%nat && String.eqb (String.substring (n - k) k s) t.

(** [s.split("/")] *)
Fixpoint split_sep (s : string) : list string :=
  match s with
  | EmptyString => [""]
  | String c r =>
      if Ascii.eqb c "/"%char then "" :: split_sep r
      else match split_sep r with
           | [] => [String c ""]
           | h :: t => String c h :: t
           end
  end.

(** [s.rstrip("/")] *)
Fixpoint rstrip_sep (s : string) : string :=
  match s with
  | EmptyString => ""
  | String c r =>
      match rstrip_sep r with
      | EmptyString => if Ascii.eqb c "/"%char then "" else String c ""
      | r' => String c r'
      end
  end.

(** [(s[:i], s[i:])] for [i = s.rfind("/") + 1] *)
Fixpoint rsplit_sep (s : string) : string * string :=
  match s with
  | EmptyString => ("", "")
  | String c r =>
      match rsplit_sep r with
      | (EmptyString, t) =>
          if Ascii.eqb c "/"%char then ("/", t) else ("", String c t)
      | (h, t) => (String c h, t)
      end
  end.

End PyStr.

(** ** posixpath *)

Module PosixPath.

Definition sep : string := "/".
Definition curdir : string := ".".
Definition pardir : string := "..".

(** [os.path.join(a, b)]: an absolute [b] (or an empty [a]) discards
    [a]; otherwise the two are glued with exactly one separator. *)
Definition join (a b : string) : string :=
  if PyStr.startswith b sep || String.eqb a "" then b
  else if PyStr.endswith a sep then a +:+ b
  else a +:+ sep +:+ b.

(** [os.path.isabs(p)] *)
Definition isabs (p : string) : bool := PyStr.startswith p sep.

(** [os.path.split(p)]: the head keeps its trailing separators only
    when it consists of nothing else. *)
Definition split (p : string) : string * string :=
  let '(head, tail) := PyStr.rsplit_sep p in
  match PyStr.rstrip_sep head with
  | EmptyString => (head, tail)
  | head' => (head', tail)
  end.

End PosixPath.

(** ** The world a call runs in *)

(** A file-system object: a directory, or a regular file with its text
    (the encoding of the text to bytes is not modelled). [writable]
    abstracts the permission bits to the one question the code depends
    on. *)
Inductive node : Type :=
  | Dir (writable : bool)
  | File (writable : bool) (content : string).

(** The exceptions that can leave the modelled calls: the [OSError]
    subclasses of the file operations, [subprocess.CalledProcessError],
    and any other exception, kept by its message. *)
Inductive pyexn : Type :=
  | FileExistsError (path : string)
  | FileNotFoundError (path : string)
  | NotADirectoryError (path : string)
  | IsADirectoryError (path : string)
  | PermissionError (path : string)
  | CalledProcessError (returncode : Z) (cmd output stderr : string)
  | OtherError (msg : string).

(** Objects are keyed by their absolute path, as the list of its
    components from the root [[]]; [cwd] is the working directory of the
    process and [console] what has been printed so far. *)
Record World : Type := mkWorld {
  cwd : list string;
  nodes : gmap (list string) node;
  console : list string
}.

Definition set_nodes (w : World) (m : gmap (list string) node) : World :=
  {| cwd := cwd w; nodes := m; console := console w |}.

(** ** Computations with state and exceptions *)

Inductive Outcome (A : Type) : Type :=
  | Ok (a : A) (w : World)
  | Raise (e : pyexn) (w : World).
Arguments Ok {A} a w.
Arguments Raise {A} e w.

Definition Py (A : Type) : Type := World -> Outcome A.

#[global] Instance Py_ret : MRet Py := fun A a w => Ok a w.
#[global] Instance Py_bind : MBind Py := fun A B k m w =>
  match m w with
  | Ok a w' => k a w'
  | Raise e w' => Raise e w'
  end.

Definition raise {A : Type} (e : pyexn) : Py A := fun w => Raise e w.

(** [try: body except ...: handler]: [handler e] is [None] when no
    [except] clause matches [e], which then propagates. *)
Definition try_except {A : Type} (body : Py A)
    (handler : pyexn -> option (Py A)) : Py A := fun w =>
  match body w with
  | Ok a w' => Ok a w'
  | Raise e w' =>
      match handler e with
      | Some h => h w'
      | None => Raise e w'
      end
  end.

(** [print(line)] *)
Definition print (line : string) : Py unit := fun w =>
  Ok tt {| cwd := cwd w; nodes := nodes w; console := console w ++ [line] |}.

(** ** The operating-system calls *)

Module Os.

(** Resolution starts at the root for an absolute path and at the
    working directory otherwise. *)
Definition start (w : World) (p : string) : list string :=
  if PosixPath.isabs p then [] else cwd w.

(** One component at a time: the directory a component is looked up in
    must exist and be a directory; an empty component and [.] stay,
    [..] goes to the parent, a name goes down. The object the last
    name leads to need not exist. [p] is the path as given, for the
    exception. *)
Fixpoint walk (m : gmap (list string) node) (p : string)
    (cur : list string) (cs : list string) : pyexn + list string :=
  match cs with
  | [] => inr cur
  | c :: rest =>
      match m !! cur with
      | Some (Dir _) =>
          if String.eqb c "" || String.eqb c PosixPath.curdir
          then walk m p cur rest
          else if String.eqb c PosixPath.pardir
          then walk m p (removelast cur) rest
          else walk m p (cur ++ [c]) rest
      | Some (File _ _) => inl (NotADirectoryError p)
      | None => inl (FileNotFoundError p)
      end
  end.

Definition resolve (w : World) (p : string) : pyexn + list string :=
  if String.eqb p "" then inl (FileNotFoundError p)
  else walk (nodes w) p (start w p) (PyStr.split_sep p).

(** [os.path.exists(p)] *)
Definition path_exists (p : string) : Py bool := fun w =>
  Ok match resolve w p with
     | inr k => bool_decide (is_Some (nodes w !! k))
     | inl _ => false
     end w.

(** [os.path.isdir(p)] *)
Definition isdir (p : string) : Py bool := fun w =>
  Ok match resolve w p with
     | inr k => match nodes w !! k with Some (Dir _) => true | _ => false end
     | inl _ => false
     end w.

(** What creating an entry in the directory [parent] raises, if
    anything. *)
Definition create_in (m : gmap (list string) node) (p : string)
    (parent : list string) : option pyexn :=
  match m !! parent with
  | Some (Dir true) => None
  | Some (Dir false) => Some (PermissionError p)
  | Some (File _ _) => Some (NotADirectoryError p)
  | None => Some (FileNotFoundError p)
  end.

(** [os.mkdir(p)] *)
Definition mkdir (p : string) : Py unit := fun w =>
  match resolve w p with
  | inl e => Raise e w
  | inr k =>
      match nodes w !! k with
      | Some _ => Raise (FileExistsError p) w
      | None =>
          match create_in (nodes w) p (removelast k) with
          | Some e => Raise e w
          | None => Ok tt (set_nodes w (<[k := Dir true]> (nodes w)))
          end
      end
  end.

Definition is_OSError (e : pyexn) : bool :=
  match e with
  | CalledProcessError _ _ _ _ | OtherError _ => false
  | _ => true
  end.

(** [os.makedirs(name, exist_ok=exist_ok)], as CPython defines it:
    create the missing head first, then the leaf, and forgive a
    failure of the leaf when the directory is there and [exist_ok] is
    set. The recursion is on the head of [os.path.split], which is
    shorter than [name]; [fuel] bounds its depth. *)
Fixpoint makedirs_rec (fuel : nat) (name : string) (exist_ok : bool)
    : Py unit :=
  match fuel with
  | O => raise (OtherError "RecursionError")
  | S fuel' =>
      let '(head, tail) := PosixPath.split name in
      let '(head, tail) :=
        if String.eqb tail "" then PosixPath.split head else (head, tail) in
      head_there ← path_exists head;
      leaf_is_curdir ←
        (if negb (String.eqb head "") && negb (String.eqb tail "")
            && negb head_there
         then
           try_except (makedirs_rec fuel' head exist_ok)
             (fun e => match e with
                       | FileExistsError _ => Some (mret tt)
                       | _ => None
                       end) ;;
           mret (String.eqb tail PosixPath.curdir)
         else mret false);
      if leaf_is_curdir : bool then mret tt
      else
        try_except (mkdir name)
          (fun e =>
             if is_OSError e then
               Some (there ← isdir name;
                     if negb exist_ok || negb there then raise e
                     else mret tt)
             else None)
  end.

Definition makedirs (name : string) (exist_ok : bool) : Py unit :=
  makedirs_rec (S (String.length name)) name exist_ok.

(** [open(p, "w")]: the file is created, or emptied when it is there;
    the handle is the key of the file. *)
Definition open_w (p : string) : Py (list string) := fun w =>
  match resolve w p with
  | inl e => Raise e w
  | inr k =>
      match nodes w !! k with
      | Some (Dir _) => Raise (IsADirectoryError p) w
      | Some (File false _) => Raise (PermissionError p) w
      | Some (File true _) =>
          Ok k (set_nodes w (<[k := File true ""]> (nodes w)))
      | None =>
          match create_in (nodes w) p (removelast k) with
          | Some e => Raise e w
          | None => Ok k (set_nodes w (<[k := File true ""]> (nodes w)))
          end
      end
  end.

(** [f.write(s)] on a handle opened for writing: the text goes to the
    end of what the handle has written so far. *)
Definition write (f : list string) (s : string) : Py Z := fun w =>
  match nodes w !! f with
  | Some (File b c) =>
      Ok (PyStr.len s) (set_nodes w (<[f := File b (c +:+ s)]> (nodes w)))
  | _ => Raise (OtherError "I/O operation on closed file") w
  end.

(** Leaving the [with] block closes the handle. *)
Definition close (f : list string) : Py unit := mret tt.


End Os.

(** ** subprocess *)

(** [subprocess.CompletedProcess], with the streams captured as text. *)
Record CompletedProcess : Type := mkCompleted {
  returncode : Z;
  stdout : string;
  stderr : string
}.

Module Subprocess.
Section Host.

(** The host: what running a command line through the shell and waiting
    for it does to the world, and which exit code and captured text it
    ends with (or which exception stops the launch); and the names of
    the signals of the platform. *)
Variable sh : string -> Py CompletedProcess.
Variable signal_name : Z -> option string.

(** [subprocess.run(command, shell=True, capture_output=True, text=True,
    check=check)] *)
Definition run (command : string) (check : bool) : Py CompletedProcess :=
  r ← sh command;
  if check && negb (returncode r =? 0)
  then raise (CalledProcessError (returncode r) command (stdout r) (stderr r))
  else mret r.

(** [str(e)] for [e = CalledProcessError(rc, cmd, ...)] *)
Definition CalledProcessError_str (rc : Z) (cmd : string) : string :=
  if negb (rc =? 0) && (rc <? 0) then
    match signal_name (- rc) with
    | Some nm =>
        "Command '" +:+ cmd +:+ "' died with <Signals." +:+ nm +:+ ": "
          +:+ pretty (- rc) +:+ ">."
    | None =>
        "Command '" +:+ cmd +:+ "' died with unknown signal "
          +:+ pretty (- rc) +:+ "."
    end
  else
    "Command '" +:+ cmd +:+ "' returned non-zero exit status "
      +:+ pretty rc +:+ ".".

End Host.
End Subprocess.

(** ** tdd_tools *)

Definition CODE_BASE_DIR : string := "simulated_codebase".
Definition TEST_BASE_DIR : string := "simulated_tests".

(** [_ensure_dirs()]: both workspace directories, the one for code
    first. *)
Definition _ensure_dirs : Py unit :=
  Os.makedirs CODE_BASE_DIR true ;;
  Os.makedirs TEST_BASE_DIR true.

(** [write_test_file(test_name, test_content)] *)
Definition write_test_file (test_name test_content : string)
    : Py (gmap string string) :=
  _ensure_dirs ;;
  let file_path := PosixPath.join TEST_BASE_DIR test_name in
  f ← Os.open_w file_path;
  Os.write f test_content ;;
  Os.close f ;;
  print ("Test Expert wrote test file: " +:+ file_path) ;;
  mret {[ "status" := "success";
          "file_path" := file_path;
          "content_preview" := PyStr.slice test_content None (Some 100) ]}.

(** [write_code_file(module_name, code_content)] *)
Definition write_code_file (module_name code_content : string)
    : Py (gmap string string) :=
  _ensure_dirs ;;
  let file_path := PosixPath.join CODE_BASE_DIR module_name in
  f ← Os.open_w file_path;
  Os.write f code_content ;;
  Os.close f ;;
  print ("Coder wrote/updated code file: " +:+ file_path) ;;
  mret {[ "status" := "success";
          "file_path" := file_path;
          "content_preview" := PyStr.slice code_content None (Some 100) ]}.

Section ShellCommand.

Variable sh : string -> Py CompletedProcess.
Variable signal_name : Z -> option string.

(** [run_shell_command(command)]: only [CalledProcessError] is caught. *)
Definition run_shell_command (command : string) : Py (gmap string string) :=
  print ("Installation Expert executing command: " +:+ command) ;;
  try_except
    (result ← Subprocess.run sh command true;
     mret {[ "status" := "success";
             "command" := command;
             "stdout" := stdout result;
             "stderr" := stderr result ]})
    (fun e =>
       match e with
       | CalledProcessError rc cmd out err =>
           Some (mret {[ "status" := "failed";
                         "command" := command;
                         "stdout" := out;
                         "stderr" := err;
                         "error" :=
                           Subprocess.CalledProcessError_str
                             signal_name rc cmd ]})
       | _ => None
       end).

End ShellCommand.

(** ** Python values *)

(** The values a [Dict[str, Any]] of this module holds: JSON-like data,
    the keys of every dictionary being strings. A [gmap] does not keep
    the order in which the keys were inserted. *)
#[warnings="-register-all"] Inductive pyval : Type :=
  | VNone
  | VBool (b : bool)
  | VInt (z : Z)
  | VStr (s : string)
  | VList (l : list pyval)
  | VDict (d : gmap string pyval).

Module PyVal.

(** [type(v).__name__] *)
Definition type_name (v : pyval) : string :=
  match v with
  | VNone => "NoneType"
  | VBool _ => "bool"
  | VInt _ => "int"
  | VStr _ => "str"
  | VList _ => "list"
  | VDict _ => "dict"
  end.

(** The exceptions of the value operations, named by class and cause. *)
Definition KeyError (key : string) : pyexn :=
  OtherError ("KeyError: " +:+ key).

Definition AttributeError (ty attr : string) : pyexn :=
  OtherError ("AttributeError: '" +:+ ty +:+ "' object has no attribute '"
              +:+ attr +:+ "'").

Definition TypeError (msg : string) : pyexn :=
  OtherError ("TypeError: " +:+ msg).

Definition StopIteration : pyexn := OtherError "StopIteration".

(** [v.get(key)]: only a dictionary has the method; a missing key gives
    [None]. *)
Definition get (v : pyval) (key : string) : pyexn + pyval :=
  match v with
  | VDict d => inr (default VNone (d !! key))
  | _ => inl (AttributeError (type_name v) "get")
  end.

(** [d[key]] on a dictionary *)
Definition dict_getitem (d : gmap string pyval) (key : string)
    : pyexn + pyval :=
  match d !! key with
  | Some x => inr x
  | None => inl (KeyError key)
  end.

(** [v[key]] for a string [key] *)
Definition getitem (v : pyval) (key : string) : pyexn + pyval :=
  match v with
  | VDict d => dict_getitem d key
  | VList _ =>
      inl (TypeError "list indices must be integers or slices, not str")
  | VStr _ => inl (TypeError "string indices must be integers, not 'str'")
  | _ => inl (TypeError ("'" +:+ type_name v +:+ "' object is not subscriptable"))
  end.

(** [v == s] for a string [s] *)
Definition eq_str (v : pyval) (s : string) : bool :=
  match v with
  | VStr x => String.eqb x s
  | _ => false
  end.

(** The characters of a string, each a string of length one. *)
Fixpoint chars (s : string) : list pyval :=
  match s with
  | EmptyString => []
  | String c r => VStr (String c "") :: chars r
  end.

(** What [for t in v] goes through: the elements of a list, the
    characters of a string, the keys of a dictionary. *)
Definition iterate (v : pyval) : pyexn + list pyval :=
  match v with
  | VList l => inr l
  | VStr s => inr (chars s)
  | VDict d => inr (VStr <$> (map_to_list d).*1)
  | _ => inl (TypeError ("'" +:+ type_name v +:+ "' object is not iterable"))
  end.

End PyVal.

(** A value computed without effect, or the exception it raises. *)
Definition lift {A : Type} (x : pyexn + A) : Py A := fun w =>
  match x with
  | inl e => Raise e w
  | inr a => Ok a w
  end.

(** ** tdd_tools: the simulated steps *)

(** [any(t.get("status") == "failed" for t in ts)] *)
Fixpoint any_failed (ts : list pyval) : pyexn + bool :=
  match ts with
  | [] => inr false
  | t :: rest =>
      match PyVal.get t "status" with
      | inl e => inl e
      | inr v => if PyVal.eq_str v "failed" then inr true else any_failed rest
      end
  end.

(** [next(t for t in ts if t.get("status") == "failed")] *)
Fixpoint next_failed (ts : list pyval) : pyexn + pyval :=
  match ts with
  | [] => inl PyVal.StopIteration
  | t :: rest =>
      match PyVal.get t "status" with
      | inl e => inl e
      | inr v => if PyVal.eq_str v "failed" then inr t else next_failed rest
      end
  end.



(** The canned result of [run_tests]. *)
Definition simulated_test_output : gmap string pyval :=
  {[ "summary" := VStr "1 failed, 1 passed";
     "details" :=
       VList [ VDict {[ "test" := VStr "test_add_numbers";
                        "status" := VStr "passed" ]};
               VDict {[ "test" := VStr "test_subtract_numbers";
                        "status" := VStr "failed";
                        "error" := VStr "AssertionError: 3 != 2" ]} ] ]}.

Section Simulated.

(** [repr(v)], the text an f-string or [print] shows for a value that is
    not a string. *)
Variable repr : pyval -> string.

(** [str(v)], as the f-string formats a value. *)
Definition py_str (v : pyval) : string :=
  match v with
  | VStr s => s
  | _ => repr v
  end.

(** [run_tests()] *)
Definition run_tests : Py (gmap string pyval) :=
  print "Test Manager is running tests..." ;;
  print ("Simulated test result: " +:+ repr (VDict simulated_test_output)) ;;
  mret {[ "status" := VStr "failed";
          "test_results" := VDict simulated_test_output ]}.

(** [analyze_failure(failure_details)] *)
Definition analyze_failure (failure_details : gmap string pyval)
    : Py (gmap string string) :=
  print ("Debugger is analyzing failure: " +:+ repr (VDict failure_details)) ;;
  found ←
    (if bool_decide (is_Some (failure_details !! "details")) then
       details ← lift (PyVal.dict_getitem failure_details "details");
       ts ← lift (PyVal.iterate details);
       lift (any_failed ts)
     else mret false);
  if found : bool then
    details ← lift (PyVal.dict_getitem failure_details "details");
    ts ← lift (PyVal.iterate details);
    first_failure ← lift (next_failed ts);
    test ← lift (PyVal.getitem first_failure "test");
    error ← lift (PyVal.getitem first_failure "error");
    let bug_report :=
      "Bug in " +:+ py_str test +:+ ": " +:+ py_str error
      +:+ ". Suggesting fix in " +:+ CODE_BASE_DIR +:+ "/some_module.py" in
    print bug_report ;;
    mret {[ "status" := "analysis_complete";
            "bug_report" := bug_report;
            "suggested_fix" := "Adjust the subtraction logic." ]}
  else mret {[ "status" := "no_failures_found" ]}.

End Simulated.

(** ** Notions the properties are stated with *)

(** [s] contains a path separator. *)
Fixpoint has_sep (s : string) : bool :=
  match s with
  | EmptyString => false
  | String c r => Ascii.eqb c "/"%char || has_sep r
  end.

(** A valid relative file name: one path component that names an entry
    of the directory it is joined to (so neither empty, [.] nor [..],
    and without separator), like the ["calculator.py"] of the
    docstrings. *)
Definition valid_name (s : string) : bool :=
  negb (has_sep s) && negb (String.eqb s "")
  && negb (String.eqb s PosixPath.curdir)
  && negb (String.eqb s PosixPath.pardir).

(** The object at [k] is a directory. *)
Definition is_dir_at (m : gmap (list string) node) (k : list string) : bool :=
  match m !! k with Some (Dir _) => true | _ => false end.

(** The directory [base] of the working directory is there, or may be
    created: the working directory is a directory, and [base] is either
    a directory already or absent with the working directory writable. *)
Definition creatable (w : World) (base : string) : bool :=
  match nodes w !! cwd w with
  | Some (Dir b) =>
      match nodes w !! (cwd w ++ [base]) with
      | Some (Dir _) => true
      | Some (File _ _) => false
      | None => b
      end
  | _ => false
  end.

(** A starting state in which the provisioning of the workspace is
    permitted. *)
Definition provisionable (w : World) : bool :=
  creatable w CODE_BASE_DIR && creatable w TEST_BASE_DIR.

(** Both workspace directories are there already. *)
Definition workspace_present (w : World) : bool :=
  is_dir_at (nodes w) (cwd w)
  && is_dir_at (nodes w) (cwd w ++ [CODE_BASE_DIR])
  && is_dir_at (nodes w) (cwd w ++ [TEST_BASE_DIR]).

(** The file [name] of the directory [base] may be written: it is a
    writable regular file, or it is absent and [base] is writable or yet
    to be created. *)
Definition target_writable (w : World) (base name : string) : bool :=
  match nodes w !! (cwd w ++ [base; name]) with
  | Some (File b _) => b
  | Some (Dir _) => false
  | None =>
      match nodes w !! (cwd w ++ [base]) with
      | Some (Dir b) => b
      | Some (File _ _) => false
      | None => true
      end
  end.

(** [n] calls in a row. *)
Fixpoint call_times (n : nat) (f : Py unit) : Py unit :=
  match n with
  | O => mret tt
  | S k => f ;; call_times k f
  end.

(** The key [k] lies in the directory [d] (at any depth). *)
Definition inside (d k : list string) : Prop := d `prefix_of` k ∧ d ≠ k.

(** The key lies in one of the two workspace directories of [w]. *)
Definition in_workspace (w : World) (k : list string) : Prop :=
  inside (cwd w ++ [CODE_BASE_DIR]) k ∨ inside (cwd w ++ [TEST_BASE_DIR]) k.

(** A directory creation or the opening of the target raises [e] when a
    file is written into [base], leaving the world [w']. *)
Definition io_fault (base name : string) (w : World) (e : pyexn) (w' : World)
    : Prop :=
  _ensure_dirs w = Raise e w'
  ∨ ∃ w1, _ensure_dirs w = Ok tt w1
          ∧ Os.open_w (PosixPath.join base name) w1 = Raise e w'.

(** The objects once the directory at [k] has been ensured. *)
Definition add_dir (k : list string) (m : gmap (list string) node)
    : gmap (list string) node :=
  match m !! k with
  | Some _ => m
  | None => <[k := Dir true]> m
  end.

(** The objects once both workspace directories have been ensured. *)
Definition provision (w : World) : gmap (list string) node :=
  add_dir (cwd w ++ [TEST_BASE_DIR])
    (add_dir (cwd w ++ [CODE_BASE_DIR]) (nodes w)).

(** The world after [line] has been printed. *)
Definition said (line : string) (w : World) : World :=
  {| cwd := cwd w; nodes := nodes w; console := console w ++ [line] |}.

(** The record both writers return for the path [p]. *)
Definition write_result (p content : string) : gmap string string :=
  {[ "status" := "success";
     "file_path" := p;
     "content_preview" := PyStr.slice content None (Some 100) ]}.

(** The world a writer leaves: the file at [h] holds [content] and the
    confirmation has been printed. *)
Definition written (h : list string) (content line : string) (w : World)
    : World :=
  said line (set_nodes w (<[h := File true content]> (nodes w))).

(** The common shape of the two writers: what either does, given its
    directory and the words of its message. *)
Definition write_in (base label name content : string)
    : Py (gmap string string) := fun w =>
  let p := PosixPath.join base name in
  match _ensure_dirs w with
  | Raise e w1 => Raise e w1
  | Ok _ w1 =>
      match Os.open_w p w1 with
      | Raise e w2 => Raise e w2
      | Ok h _ => Ok (write_result p content) (written h content (label +:+ p) w1)
      end
  end.

(** ** Sample worlds and a sample host *)

(** A working directory [/w] with nothing in it. *)
Definition bare : World :=
  {| cwd := ["w"];
     nodes := {[ [] := Dir true; ["w"] := Dir true ]};
     console := [] |}.

(** The same, with a regular file where the code directory should be. *)
Definition blocked : World :=
  {| cwd := ["w"];
     nodes := {[ [] := Dir true; ["w"] := Dir true;
                 ["w"; "simulated_codebase"] := File true "" ]};
     console := [] |}.

(** Both directories are there, the one for tests read-only. *)
Definition readonly_tests : World :=
  {| cwd := ["w"];
     nodes := {[ [] := Dir true; ["w"] := Dir true;
                 ["w"; "simulated_codebase"] := Dir true;
                 ["w"; "simulated_tests"] := Dir false ]};
     console := [] |}.

(** Both directories are there, with an earlier [calc.py]. *)
Definition populated : World :=
  {| cwd := ["w"];
     nodes := {[ [] := Dir true; ["w"] := Dir true;
                 ["w"; "simulated_codebase"] := Dir true;
                 ["w"; "simulated_tests"] := Dir true;
                 ["w"; "simulated_codebase"; "calc.py"]
                   := File true "def add(a, b): return a - b" ]};
     console := [] |}.

(** A test text of 115 characters. *)
Definition long_text : string :=
  "def test_add(): assert add(1, 2) == 3; def test_sub(): assert sub(3, 1) == 2; def test_mul(): assert mul(2, 3) == 6".


Definition toy_signal_name (n : Z) : option string :=
  if n =? 9 then Some "SIGKILL"
  else if n =? 15 then Some "SIGTERM"
  else None.

(** A [repr] that shows scalars and abbreviates containers. *)
Definition toy_repr (v : pyval) : string :=
  match v with
  | VNone => "None"
  | VBool true => "True"
  | VBool false => "False"
  | VInt z => pretty z
  | VStr s => "'" +:+ s +:+ "'"
  | VList _ => "[...]"
  | VDict _ => "{...}"
  end.

(** A host on which no command can be launched. *)
Definition dead_sh (command : string) : Py CompletedProcess :=
  raise (OtherError "BlockingIOError: Resource temporarily unavailable").

(** The working directory [/w] with a regular file where the directory
    for tests should be. *)
Definition blocked_tests : World :=
  {| cwd := ["w"];
     nodes := {[ [] := Dir true; ["w"] := Dir true;
                 ["w"; "simulated_tests"] := File true "" ]};
     console := [] |}.

(** The entry of a test: a dictionary with its name, its status and,
    when given, its error. *)
Definition test_entry (name status : string) (error : option string) : pyval :=
  VDict (match error with
         | Some e => {[ "test" := VStr name; "status" := VStr status;
                        "error" := VStr e ]}
         | None => {[ "test" := VStr name; "status" := VStr status ]}
         end).

(** [t] is a dictionary whose status is not ["failed"]. *)
Definition not_failed (t : pyval) : Prop :=
  ∃ v, PyVal.get t "status" = inr v ∧ PyVal.eq_str v "failed" = false.

(** [t] is a dictionary whose status is ["failed"]. *)
Definition is_failed (t : pyval) : Prop :=
  ∃ d, t = VDict d ∧ d !! "status" = Some (VStr "failed").


(** The report on a failed test with the name [test] and the error
    [error]. *)
Definition bug_report (repr : pyval -> string) (test error : pyval) : string :=
  "Bug in " +:+ py_str repr test +:+ ": " +:+ py_str repr error
  +:+ ". Suggesting fix in simulated_codebase/some_module.py".

(** The world once [analyze_failure] has announced itself. *)
Definition analysing (repr : pyval -> string) (fd : gmap string pyval)
    (w : World) : World :=
  said ("Debugger is analyzing failure: " +:+ repr (VDict fd)) w.

(** The two records [analyze_failure] returns. *)
Definition no_failures_found : gmap string string :=
  {[ "status" := "no_failures_found" ]}.

Definition analysis_complete (report : string) : gmap string string :=
  {[ "status" := "analysis_complete";
     "bug_report" := report;
     "suggested_fix" := "Adjust the subtraction logic." ]}.

(** What the two scans of [analyze_failure] and the two subscripts give
    for the elements [ts]: no failed test, or the report on the first
    one, or the exception that ends the call. *)
Definition scan (repr : pyval -> string) (ts : list pyval)
    : pyexn + option string :=
  match any_failed ts with
  | inl e => inl e
  | inr false => inr None
  | inr true =>
      match next_failed ts with
      | inl e => inl e
      | inr t =>
          match PyVal.getitem t "test" with
          | inl e => inl e
          | inr a =>
              match PyVal.getitem t "error" with
              | inl e => inl e
              | inr b => inr (Some (bug_report repr a b))
              end
          end
      end
  end.

(** ** Properties of the string and path functions *)

Lemma split_sep_no_sep s : has_sep s = false -> PyStr.split_sep s = [s].
Proof.
  induction s as [|c r IH]; simpl; [done|].
  intros [Hc Hr]%orb_false_iff. by rewrite Hc, IH.
Qed.

Lemma rsplit_sep_no_sep s : has_sep s = false -> PyStr.rsplit_sep s = ("", s).
Proof.
  induction s as [|c r IH]; simpl; [done|].
  intros [Hc Hr]%orb_false_iff. by rewrite IH, Hc.
Qed.

Lemma split_no_sep s : has_sep s = false -> PosixPath.split s = ("", s).
Proof. intros H. unfold PosixPath.split. by rewrite rsplit_sep_no_sep. Qed.

Lemma split_sep_app a b :
  has_sep a = false ->
  PyStr.split_sep (a +:+ "/" +:+ b) = a :: PyStr.split_sep b.
Proof.
  induction a as [|c r IH]; simpl; [done|].
  intros [Hc Hr]%orb_false_iff. by rewrite Hc, IH.
Qed.

Lemma startswith_sep c r :
  PyStr.startswith (String c r) PosixPath.sep = Ascii.eqb c "/"%char.
Proof.
  unfold PyStr.startswith, PosixPath.sep.
  change (String.prefix "/" (String c r))
    with (if Ascii.ascii_dec "/" c then String.prefix "" r else false).
  destruct (Ascii.ascii_dec "/" c) as [<-|Hne].
  - by destruct r.
  - symmetry. apply Ascii.eqb_neq. congruence.
Qed.

Lemma isabs_no_sep s : has_sep s = false -> PosixPath.isabs s = false.
Proof.
  destruct s as [|c r]; [done|]. simpl. intros [Hc _]%orb_false_iff.
  unfold PosixPath.isabs. by rewrite startswith_sep.
Qed.

Lemma isabs_app a b : a ≠ "" -> PosixPath.isabs (a +:+ b) = PosixPath.isabs a.
Proof.
  destruct a as [|c r]; [done|]. intros _. unfold PosixPath.isabs.
  change (String c r +:+ b) with (String c (r +:+ b)).
  by rewrite !startswith_sep.
Qed.

Lemma valid_name_inv s :
  valid_name s = true ->
  has_sep s = false ∧ String.eqb s "" = false
  ∧ String.eqb s PosixPath.curdir = false
  ∧ String.eqb s PosixPath.pardir = false.
Proof.
  unfold valid_name. rewrite !andb_true_iff, !negb_true_iff. tauto.
Qed.

(** [os.path.join] with a relative name glues with one separator. *)
Lemma join_relative base name :
  base ≠ "" -> PyStr.endswith base PosixPath.sep = false ->
  PosixPath.isabs name = false ->
  PosixPath.join base name = base +:+ "/" +:+ name.
Proof.
  intros Hb He Hn. unfold PosixPath.join. unfold PosixPath.isabs in Hn.
  rewrite Hn, He. destruct base; [done|]. reflexivity.
Qed.

(** [os.path.join] with an absolute name drops the directory. *)
Lemma join_absolute base name :
  PosixPath.isabs name = true -> PosixPath.join base name = name.
Proof.
  intros Hn. unfold PosixPath.join. unfold PosixPath.isabs in Hn.
  by rewrite Hn.
Qed.

(** ** Sample evaluations *)

Example join_relative_name :
  PosixPath.join TEST_BASE_DIR "test_calc.py" = "simulated_tests/test_calc.py".
Proof. reflexivity. Qed.

Example join_absolute_name :
  PosixPath.join CODE_BASE_DIR "/etc/passwd" = "/etc/passwd".
Proof. reflexivity. Qed.

Example join_trailing_sep : PosixPath.join "a/" "b" = "a/b".
Proof. reflexivity. Qed.

Example split_nested : PosixPath.split "/a/b//c" = ("/a/b", "c").
Proof. reflexivity. Qed.

Example split_plain :
  PosixPath.split CODE_BASE_DIR = ("", "simulated_codebase").
Proof. reflexivity. Qed.

Example slice_head : PyStr.slice "hello" None (Some 3) = "hel".
Proof. reflexivity. Qed.

Example slice_beyond : PyStr.slice "hello" None (Some 100) = "hello".
Proof. reflexivity. Qed.

Example preview_of_long_text :
  PyStr.slice long_text None (Some 100)
  = "def test_add(): assert add(1, 2) == 3; def test_sub(): assert sub(3, 1) == 2; def test_mul(): assert".
Proof. vm_compute. reflexivity. Qed.

Example slice_negative : PyStr.slice "hello" (Some (-2)) None = "lo".
Proof. reflexivity. Qed.

Example makedirs_nested :
  match Os.makedirs "a/b/c" true bare with
  | Ok _ w => is_dir_at (nodes w) ["w"; "a"; "b"; "c"]
              && is_dir_at (nodes w) ["w"; "a"; "b"]
  | Raise _ _ => false
  end = true.
Proof. vm_compute. reflexivity. Qed.

Example makedirs_not_exist_ok :
  Os.makedirs CODE_BASE_DIR false populated
  = Raise (FileExistsError "simulated_codebase") populated.
Proof. vm_compute. reflexivity. Qed.

Example write_empty_name :
  write_test_file "" "x" populated
  = Raise (IsADirectoryError "simulated_tests/") populated.
Proof. vm_compute. reflexivity. Qed.

Example write_missing_subdirectory :
  match write_code_file "pkg/calc.py" "x" populated with
  | Raise e _ => Some e
  | Ok _ _ => None
  end = Some (FileNotFoundError "simulated_codebase/pkg/calc.py").
Proof. vm_compute. reflexivity. Qed.

Example error_of_exit_status :
  Subprocess.CalledProcessError_str toy_signal_name 1 "false"
  = "Command 'false' returned non-zero exit status 1.".
Proof. vm_compute. reflexivity. Qed.

Example error_of_signal :
  Subprocess.CalledProcessError_str toy_signal_name (-9) "kill -9 $$"
  = "Command 'kill -9 $$' died with <Signals.SIGKILL: 9>.".
Proof. vm_compute. reflexivity. Qed.

(** ** Properties of the operating-system calls *)

Lemma resolve_valid w d :
  valid_name d = true ->
  Os.resolve w d =
    match nodes w !! cwd w with
    | Some (Dir _) => inr (cwd w ++ [d])
    | Some (File _ _) => inl (NotADirectoryError d)
    | None => inl (FileNotFoundError d)
    end.
Proof.
  intros (Hs & He & Hc & Hp)%valid_name_inv.
  unfold Os.resolve, Os.start.
  rewrite He, (isabs_no_sep _ Hs), (split_sep_no_sep _ Hs). simpl.
  rewrite He, Hc, Hp. simpl. reflexivity.
Qed.

Lemma makedirs_valid w d :
  valid_name d = true ->
  Os.makedirs d true w =
    match nodes w !! cwd w with
    | Some (Dir b) =>
        match nodes w !! (cwd w ++ [d]) with
        | Some (Dir _) => Ok tt w
        | Some (File _ _) => Raise (FileExistsError d) w
        | None =>
            if b then Ok tt (set_nodes w (<[cwd w ++ [d] := Dir true]> (nodes w)))
            else Raise (PermissionError d) w
        end
    | Some (File _ _) => Raise (NotADirectoryError d) w
    | None => Raise (FileNotFoundError d) w
    end.
Proof.
  intros Hv. pose proof (valid_name_inv _ Hv) as (Hs & He & Hc & Hp).
  unfold Os.makedirs. simpl Os.makedirs_rec.
  rewrite (split_no_sep _ Hs), He.
  unfold mbind, Py_bind, Os.path_exists. simpl.
  unfold mret, Py_ret, try_except, Os.mkdir, Os.isdir.
  rewrite (resolve_valid _ _ Hv).
  destruct (nodes w !! cwd w) as [[b|? ?]|] eqn:Hcwd; simpl;
    rewrite ?(resolve_valid _ _ Hv), ?Hcwd; simpl; try reflexivity.
  destruct (nodes w !! (cwd w ++ [d])) as [[?|? ?]|] eqn:Hd; simpl;
    rewrite ?(resolve_valid _ _ Hv), ?Hcwd, ?Hd; simpl; try reflexivity.
  unfold Os.create_in. rewrite removelast_last, Hcwd.
  destruct b; simpl; [reflexivity|].
  by rewrite (resolve_valid _ _ Hv), Hcwd, Hd.
Qed.

Lemma set_nodes_id w : set_nodes w (nodes w) = w.
Proof. by destruct w. Qed.

Lemma makedirs_creatable w d :
  valid_name d = true -> creatable w d = true ->
  Os.makedirs d true w = Ok tt (set_nodes w (add_dir (cwd w ++ [d]) (nodes w))).
Proof.
  intros Hv Hc. rewrite (makedirs_valid _ _ Hv). unfold creatable, add_dir in *.
  destruct (nodes w !! cwd w) as [[b|? ?]|]; try done.
  destruct (nodes w !! (cwd w ++ [d])) as [[?|? ?]|]; try done.
  - by rewrite set_nodes_id.
  - by rewrite Hc.
Qed.

Lemma makedirs_not_creatable w d :
  valid_name d = true -> creatable w d = false ->
  ∃ e, Os.makedirs d true w = Raise e w.
Proof.
  intros Hv Hc. rewrite (makedirs_valid _ _ Hv). unfold creatable in *.
  destruct (nodes w !! cwd w) as [[b|? ?]|]; eauto.
  destruct (nodes w !! (cwd w ++ [d])) as [[?|? ?]|]; try done; eauto.
  rewrite Hc. eauto.
Qed.

Lemma app_singleton_ne (l : list string) (a b : string) :
  a ≠ b -> l ++ [a] ≠ l ++ [b].
Proof. intros Hne Heq. apply app_inv_head in Heq. congruence. Qed.

Lemma app_nonempty_ne (l t : list string) : t ≠ [] -> l ≠ l ++ t.
Proof.
  intros Ht Heq. apply Ht. apply (app_inv_head l). by rewrite app_nil_r. 
Qed.

Lemma creatable_add_dir w d d' :
  d ≠ d' ->
  creatable (set_nodes w (add_dir (cwd w ++ [d]) (nodes w))) d' = creatable w d'.
Proof.
  intros Hne. unfold creatable, add_dir. simpl.
  destruct (nodes w !! (cwd w ++ [d])) eqn:Hd; [done|].
  rewrite !lookup_insert_ne; [done| by apply app_singleton_ne | ].
  intros Heq. symmetry in Heq. by apply app_nonempty_ne in Heq.
Qed.

(** ** Properties of the provisioning *)

Lemma valid_CODE_BASE_DIR : valid_name CODE_BASE_DIR = true.
Proof. reflexivity. Qed.

Lemma valid_TEST_BASE_DIR : valid_name TEST_BASE_DIR = true.
Proof. reflexivity. Qed.

Lemma ensure_dirs_provisionable w :
  provisionable w = true -> _ensure_dirs w = Ok tt (set_nodes w (provision w)).
Proof.
  unfold provisionable. intros [Hc Ht]%andb_true_iff.
  unfold _ensure_dirs, mbind, Py_bind.
  rewrite (makedirs_creatable _ _ valid_CODE_BASE_DIR Hc).
  rewrite (makedirs_creatable _ _ valid_TEST_BASE_DIR); [done|].
  by rewrite creatable_add_dir.
Qed.

Lemma ensure_dirs_not_provisionable w :
  provisionable w = false -> ∃ e w1, _ensure_dirs w = Raise e w1.
Proof.
  unfold provisionable. intros H.
  unfold _ensure_dirs, mbind, Py_bind.
  destruct (creatable w CODE_BASE_DIR) eqn:Hc.
  - rewrite (makedirs_creatable _ _ valid_CODE_BASE_DIR Hc). simpl in H.
    destruct (makedirs_not_creatable
                (set_nodes w (add_dir (cwd w ++ [CODE_BASE_DIR]) (nodes w)))
                _ valid_TEST_BASE_DIR) as [e He].
    { by rewrite creatable_add_dir. }
    rewrite He. eauto.
  - destruct (makedirs_not_creatable w _ valid_CODE_BASE_DIR Hc) as [e He].
    rewrite He. eauto.
Qed.

Lemma ensure_dirs_ok_inv w u w1 :
  _ensure_dirs w = Ok u w1 ->
  provisionable w = true ∧ w1 = set_nodes w (provision w).
Proof.
  intros H. destruct (provisionable w) eqn:Hp.
  - rewrite (ensure_dirs_provisionable _ Hp) in H. by inversion H.
  - destruct (ensure_dirs_not_provisionable _ Hp) as (e & w' & He). congruence.
Qed.

Lemma present_provisionable w :
  workspace_present w = true ->
  provisionable w = true ∧ provision w = nodes w.
Proof.
  unfold workspace_present, provisionable, provision, creatable, add_dir, is_dir_at.
  intros [[H0 H1]%andb_true_iff H2]%andb_true_iff.
  destruct (nodes w !! cwd w) as [[?|? ?]|]; try done.
  destruct (nodes w !! (cwd w ++ [CODE_BASE_DIR])) as [[?|? ?]|]; try done.
  by destruct (nodes w !! (cwd w ++ [TEST_BASE_DIR])) as [[?|? ?]|].
Qed.

Lemma is_dir_at_add_dir k k' m :
  is_dir_at m k' = true -> is_dir_at (add_dir k m) k' = true.
Proof.
  unfold is_dir_at, add_dir. intros H.
  destruct (m !! k) eqn:Hk; [done|].
  destruct (decide (k = k')) as [<-|Hne]; [by rewrite Hk in H|].
  by rewrite lookup_insert_ne.
Qed.

Lemma is_dir_at_add_dir_eq k m :
  match m !! k with Some (File _ _) => False | _ => True end ->
  is_dir_at (add_dir k m) k = true.
Proof.
  unfold is_dir_at, add_dir.
  destruct (m !! k) as [[?|? ?]|] eqn:Hk; rewrite ?Hk, ?lookup_insert_eq; done.
Qed.

Lemma provision_present w :
  provisionable w = true -> workspace_present (set_nodes w (provision w)) = true.
Proof.
  unfold provisionable, workspace_present, provision, creatable. simpl.
  intros [Hc Ht]%andb_true_iff.
  destruct (nodes w !! cwd w) as [[b|? ?]|] eqn:Hcwd; try done.
  rewrite !andb_true_iff. split_and!.
  - do 2 apply is_dir_at_add_dir. unfold is_dir_at. by rewrite Hcwd.
  - apply is_dir_at_add_dir, is_dir_at_add_dir_eq.
    by destruct (nodes w !! (cwd w ++ [CODE_BASE_DIR])) as [[?|? ?]|].
  - apply is_dir_at_add_dir_eq. unfold add_dir.
    destruct (nodes w !! (cwd w ++ [CODE_BASE_DIR])) eqn:Hcode.
    + by destruct (nodes w !! (cwd w ++ [TEST_BASE_DIR])) as [[?|? ?]|].
    + rewrite lookup_insert_ne by (by apply app_singleton_ne).
      by destruct (nodes w !! (cwd w ++ [TEST_BASE_DIR])) as [[?|? ?]|].
Qed.

Lemma ensure_dirs_present w :
  workspace_present w = true -> _ensure_dirs w = Ok tt w.
Proof.
  intros [Hp Heq]%present_provisionable.
  by rewrite (ensure_dirs_provisionable _ Hp), Heq, set_nodes_id.
Qed.

(** ** The two writers *)

Lemma open_w_ok_inv p w h w2 :
  Os.open_w p w = Ok h w2 ->
  Os.resolve w p = inr h ∧ is_dir_at (nodes w) h = false
  ∧ w2 = set_nodes w (<[h := File true ""]> (nodes w)).
Proof.
  unfold Os.open_w, is_dir_at.
  destruct (Os.resolve w p) as [e|k]; [done|].
  destruct (nodes w !! k) as [[?|[] ?]|] eqn:Hk; try done.
  - intros [= <- <-]. by rewrite Hk.
  - destruct (Os.create_in _ _ _); [done|]. intros [= <- <-]. by rewrite Hk.
Qed.

Lemma write_after_open h content w :
  Os.write h content (set_nodes w (<[h := File true ""]> (nodes w)))
  = Ok (PyStr.len content) (set_nodes w (<[h := File true content]> (nodes w))).
Proof.
  unfold Os.write. simpl. rewrite lookup_insert_eq.
  unfold set_nodes. simpl. by rewrite insert_insert_eq.
Qed.

Lemma write_test_file_eq test_name test_content w :
  write_test_file test_name test_content w
  = write_in TEST_BASE_DIR "Test Expert wrote test file: "
      test_name test_content w.
Proof.
  unfold write_test_file, write_in, mbind, Py_bind.
  destruct (_ensure_dirs w) as [[] w1|e w1]; [|done].
  destruct (Os.open_w _ w1) as [h w2|e w2] eqn:Hopen; [|done].
  apply open_w_ok_inv in Hopen as (_ & _ & ->).
  by rewrite write_after_open.
Qed.

Lemma write_code_file_eq module_name code_content w :
  write_code_file module_name code_content w
  = write_in CODE_BASE_DIR "Coder wrote/updated code file: "
      module_name code_content w.
Proof.
  unfold write_code_file, write_in, mbind, Py_bind.
  destruct (_ensure_dirs w) as [[] w1|e w1]; [|done].
  destruct (Os.open_w _ w1) as [h w2|e w2] eqn:Hopen; [|done].
  apply open_w_ok_inv in Hopen as (_ & _ & ->).
  by rewrite write_after_open.
Qed.

(** Writing a regular file where no directory was does not change where
    a path leads. *)
Lemma walk_insert_file m p cs : ∀ cur h b c,
  Os.walk m p cur cs = inr h -> is_dir_at m h = false ->
  Os.walk (<[h := File b c]> m) p cur cs = inr h.
Proof.
  induction cs as [|x rest IH]; intros cur h b c Hw Hh; simpl in *; [done|].
  destruct (m !! cur) as [[d|? ?]|] eqn:Hcur; try done.
  assert (h ≠ cur) as Hne.
  { intros ->. unfold is_dir_at in Hh. by rewrite Hcur in Hh. }
  rewrite lookup_insert_ne, Hcur by done.
  destruct (_ || _); [by apply IH|].
  destruct (String.eqb x PosixPath.pardir); by apply IH.
Qed.

Lemma resolve_written p h content line w :
  Os.resolve w p = inr h -> is_dir_at (nodes w) h = false ->
  Os.resolve (written h content line w) p = inr h.
Proof.
  unfold Os.resolve, Os.start. simpl.
  destruct (String.eqb p ""); [done|]. apply walk_insert_file.
Qed.


Lemma write_in_ok_inv base label name content w r w' :
  write_in base label name content w = Ok r w' ->
  ∃ w1 h,
    _ensure_dirs w = Ok tt w1
    ∧ Os.open_w (PosixPath.join base name) w1
      = Ok h (set_nodes w1 (<[h := File true ""]> (nodes w1)))
    ∧ Os.resolve w1 (PosixPath.join base name) = inr h
    ∧ is_dir_at (nodes w1) h = false
    ∧ r = write_result (PosixPath.join base name) content
    ∧ w' = written h content (label +:+ PosixPath.join base name) w1.
Proof.
  unfold write_in. intros H.
  destruct (_ensure_dirs w) as [[] w1|e w1]; [|done].
  destruct (Os.open_w _ w1) as [h w2|e w2] eqn:Hopen; [|done].
  injection H as <- <-. exists w1, h.
  pose proof (open_w_ok_inv _ _ _ _ Hopen) as (Hr & Hd & ->). done.
Qed.

Lemma provision_lookup_other w k :
  k ≠ cwd w ++ [CODE_BASE_DIR] -> k ≠ cwd w ++ [TEST_BASE_DIR] ->
  provision w !! k = nodes w !! k.
Proof.
  intros Hc Ht. unfold provision, add_dir.
  destruct (nodes w !! (cwd w ++ [CODE_BASE_DIR])) eqn:Hcode.
  - destruct (nodes w !! (cwd w ++ [TEST_BASE_DIR])); [done|].
    by rewrite lookup_insert_ne.
  - rewrite (lookup_insert_ne _ (cwd w ++ [CODE_BASE_DIR]) (cwd w ++ [TEST_BASE_DIR]))
      by (by apply app_singleton_ne).
    destruct (nodes w !! (cwd w ++ [TEST_BASE_DIR])).
    + by rewrite lookup_insert_ne.
    + by rewrite !lookup_insert_ne.
Qed.

Lemma provision_lookup_base w base :
  base = CODE_BASE_DIR ∨ base = TEST_BASE_DIR ->
  provision w !! (cwd w ++ [base])
  = Some (default (Dir true) (nodes w !! (cwd w ++ [base]))).
Proof.
  unfold provision, add_dir. intros [-> | ->].
  - destruct (nodes w !! (cwd w ++ [CODE_BASE_DIR])) eqn:Hcode.
    + destruct (nodes w !! (cwd w ++ [TEST_BASE_DIR])); [done|].
      rewrite lookup_insert_ne by (by apply app_singleton_ne). done.
    + rewrite (lookup_insert_ne _ (cwd w ++ [CODE_BASE_DIR]) (cwd w ++ [TEST_BASE_DIR]))
        by (by apply app_singleton_ne).
      destruct (nodes w !! (cwd w ++ [TEST_BASE_DIR])).
      * by rewrite lookup_insert_eq.
      * rewrite lookup_insert_ne by (by apply app_singleton_ne).
        by rewrite lookup_insert_eq.
  - destruct (nodes w !! (cwd w ++ [CODE_BASE_DIR])) eqn:Hcode.
    + destruct (nodes w !! (cwd w ++ [TEST_BASE_DIR])) eqn:Ht; [done|].
      by rewrite lookup_insert_eq.
    + rewrite (lookup_insert_ne _ (cwd w ++ [CODE_BASE_DIR]) (cwd w ++ [TEST_BASE_DIR]))
        by (by apply app_singleton_ne).
      destruct (nodes w !! (cwd w ++ [TEST_BASE_DIR])) eqn:Ht.
      * by rewrite lookup_insert_ne by (by apply app_singleton_ne).
      * by rewrite lookup_insert_eq.
Qed.

Lemma join_workspace base name :
  base = CODE_BASE_DIR ∨ base = TEST_BASE_DIR ->
  PosixPath.isabs name = false ->
  PosixPath.join base name = base +:+ "/" +:+ name.
Proof. intros [-> | ->] Hn; by apply join_relative. Qed.

Lemma valid_workspace base :
  base = CODE_BASE_DIR ∨ base = TEST_BASE_DIR -> valid_name base = true.
Proof. by intros [-> | ->]. Qed.

(** Where a valid name of a workspace directory leads. *)
Lemma resolve_target w base name :
  base = CODE_BASE_DIR ∨ base = TEST_BASE_DIR ->
  valid_name name = true ->
  is_dir_at (nodes w) (cwd w) = true ->
  is_dir_at (nodes w) (cwd w ++ [base]) = true ->
  Os.resolve w (PosixPath.join base name) = inr (cwd w ++ [base; name]).
Proof.
  intros Hb Hn Hcwd Hbase.
  pose proof (valid_name_inv _ (valid_workspace _ Hb)) as (Hs & He & Hc & Hp).
  pose proof (valid_name_inv _ Hn) as (Hs' & He' & Hc' & Hp').
  rewrite (join_workspace _ _ Hb (isabs_no_sep _ Hs')).
  unfold Os.resolve, Os.start.
  assert (base ≠ "") as Hne by (by destruct Hb as [-> | ->]).
  rewrite isabs_app, (isabs_no_sep _ Hs) by done.
  replace (String.eqb (base +:+ "/" +:+ name) "") with false
    by (by destruct base).
  rewrite (split_sep_app _ _ Hs), (split_sep_no_sep _ Hs').
  unfold is_dir_at in *. simpl.
  destruct (nodes w !! cwd w) as [[?|? ?]|]; try done.
  rewrite He, Hc, Hp. simpl.
  destruct (nodes w !! (cwd w ++ [base])) as [[?|? ?]|]; try done.
  rewrite He', Hc', Hp'. simpl. by rewrite <- app_assoc.
Qed.

Lemma write_in_returns base label name content w :
  base = CODE_BASE_DIR ∨ base = TEST_BASE_DIR ->
  valid_name name = true ->
  provisionable w = true ->
  target_writable w base name = true ->
  write_in base label name content w
  = Ok (write_result (base +:+ "/" +:+ name) content)
       (written (cwd w ++ [base; name]) content
          (label +:+ base +:+ "/" +:+ name) (set_nodes w (provision w))).
Proof.
  intros Hb Hn Hp Ht. unfold write_in.
  rewrite (ensure_dirs_provisionable _ Hp).
  pose proof (provision_present _ Hp) as Hpres.
  unfold workspace_present in Hpres. simpl in Hpres.
  apply andb_true_iff in Hpres as [[H0 H1]%andb_true_iff H2].
  assert (is_dir_at (provision w) (cwd w ++ [base]) = true) as Hbase
    by (by destruct Hb as [-> | ->]).
  pose proof (resolve_target (set_nodes w (provision w)) base name Hb Hn H0 Hbase)
    as Hres.
  pose proof (valid_name_inv _ Hn) as (Hs' & _).
  rewrite (join_workspace _ _ Hb (isabs_no_sep _ Hs')) in *.
  unfold Os.open_w. rewrite Hres. simpl.
  assert (provision w !! (cwd w ++ [base; name])
          = nodes w !! (cwd w ++ [base; name])) as Hk.
  { apply provision_lookup_other; intros Heq; apply app_inv_head in Heq; done. }
  rewrite Hk. unfold target_writable in Ht.
  destruct (nodes w !! (cwd w ++ [base; name])) as [[?|[] ?]|]; try done.
  unfold Os.create_in.
  replace (removelast (cwd w ++ [base; name])) with (cwd w ++ [base]).
  2:{ change [base; name] with ([base] ++ [name]).
      by rewrite app_assoc, removelast_last. }
  rewrite (provision_lookup_base _ _ Hb).
  by destruct (nodes w !! (cwd w ++ [base])) as [[[]|? ?]|].
Qed.

(** ** The preview *)

Lemma substring_0_prefix s : ∀ k,
  ∃ rest, s = String.substring 0 k s +:+ rest
          ∧ String.length (String.substring 0 k s) = Nat.min k (String.length s).
Proof.
  induction s as [|c r IH]; intros [|k]; simpl; eauto.
  destruct (IH k) as (rest & Heq & Hlen). exists rest. split.
  - change (String c r = String c (String.substring 0 k r +:+ rest)).
    by f_equal.
  - by f_equal.
Qed.

Lemma substring_0_all s : ∀ k,
  (String.length s <= k)%nat -> String.substring 0 k s = s.
Proof.
  induction s as [|c r IH]; intros [|k]; simpl; intros Hle; try done; try lia.
  f_equal. apply IH. lia.
Qed.

Lemma slice_to_100 s :
  PyStr.slice s None (Some 100)
  = String.substring 0 (Nat.min 100 (String.length s)) s.
Proof.
  unfold PyStr.slice, PyStr.clamp, PyStr.len, from_option.
  change (100 <? 0) with false. cbv iota.
  f_equal; lia.
Qed.

Lemma write_result_status p content :
  write_result p content !! "status" = Some "success".
Proof. unfold write_result. by simplify_map_eq. Qed.

Lemma write_result_file_path p content :
  write_result p content !! "file_path" = Some p.
Proof. unfold write_result. by simplify_map_eq. Qed.

Lemma write_result_preview p content :
  write_result p content !! "content_preview"
  = Some (PyStr.slice content None (Some 100)).
Proof. unfold write_result. by simplify_map_eq. Qed.

(** What either writer is, seen as [write_in]. *)
Lemma writer_cases (write : string -> string -> Py (gmap string string)) :
  write = write_test_file ∨ write = write_code_file ->
  ∃ base label,
    (base = CODE_BASE_DIR ∨ base = TEST_BASE_DIR)
    ∧ ∀ name content w, write name content w = write_in base label name content w.
Proof.
  intros [-> | ->].
  - exists TEST_BASE_DIR, "Test Expert wrote test file: ". split; [by right|].
    apply write_test_file_eq.
  - exists CODE_BASE_DIR, "Coder wrote/updated code file: ". split; [by left|].
    apply write_code_file_eq.
Qed.

(** C2: the [content_preview] of the record that [write_test_file] or
    [write_code_file] returns is the first 100 characters of the
    content: a prefix of it of length [min 100 (len content)], hence the
    content itself when that has at most 100 characters, the empty one
    included. *)
Theorem content_preview_first_100
    (write : string -> string -> Py (gmap string string))
    (name content : string) (w : World) (r : gmap string string) (w' : World) :
  write = write_test_file ∨ write = write_code_file ->
  write name content w = Ok r w' ->
  ∃ preview rest,
    r !! "content_preview" = Some preview
    ∧ content = preview +:+ rest
    ∧ String.length preview = Nat.min 100 (String.length content)
    ∧ ((String.length content <= 100)%nat -> preview = content).
Proof.
  intros (base & label & _ & Heq)%writer_cases Hw. rewrite Heq in Hw.
  apply write_in_ok_inv in Hw as (w1 & h & _ & _ & _ & _ & -> & _).
  rewrite write_result_preview, slice_to_100.
  destruct (substring_0_prefix content (Nat.min 100 (String.length content)))
    as (rest & Hrest & Hlen).
  eexists _, rest. split_and!; [done|done|lia|].
  intros Hle. apply substring_0_all. lia.
Qed.

Lemma content_preview_first_100_witness :
  (∃ r w',
     write_test_file "t.py" "" bare = Ok r w'
     ∧ ∃ preview rest,
         r !! "content_preview" = Some preview
         ∧ "" = preview +:+ rest
         ∧ String.length preview = Nat.min 100 (String.length "")
         ∧ ((String.length "" <= 100)%nat -> preview = ""))
  ∧ (∃ r w',
       write_code_file "t.py" long_text bare = Ok r w'
       ∧ ∃ preview rest,
           r !! "content_preview" = Some preview
           ∧ long_text = preview +:+ rest
           ∧ String.length preview = Nat.min 100 (String.length long_text)
           ∧ ((String.length long_text <= 100)%nat -> preview = long_text)).
Proof.
  split.
  - destruct (write_test_file "t.py" "" bare) as [r w'|e w'] eqn:H.
    + exists r, w'. split; [reflexivity|].
      apply (content_preview_first_100 write_test_file "t.py" "" bare r w');
        [by left | exact H].
    + vm_compute in H. discriminate H.
  - destruct (write_code_file "t.py" long_text bare) as [r w'|e w'] eqn:H.
    + exists r, w'. split; [reflexivity|].
      apply (content_preview_first_100 write_code_file "t.py" long_text
               bare r w'); [by right | exact H].
    + vm_compute in H. discriminate H.
Defined.

(** ** The status of a returned record *)

(** C10: a record returned by [write_test_file] or [write_code_file]
    always has the status ["success"]; neither reports a failure in the
    record. *)
Theorem writers_status_success
    (write : string -> string -> Py (gmap string string))
    (name content : string) (w : World) (r : gmap string string) (w' : World) :
  write = write_test_file ∨ write = write_code_file ->
  write name content w = Ok r w' ->
  r !! "status" = Some "success".
Proof.
  intros (base & label & _ & Heq)%writer_cases Hw. rewrite Heq in Hw.
  apply write_in_ok_inv in Hw as (w1 & h & _ & _ & _ & _ & -> & _).
  apply write_result_status.
Qed.

Lemma writers_status_success_witness :
  ∃ r w',
    write_code_file "calc.py" "def add(a, b): return a + b" populated = Ok r w'
    ∧ r !! "status" = Some "success".
Proof.
  destruct (write_code_file "calc.py" "def add(a, b): return a + b" populated)
    as [r w'|e w'] eqn:H.
  - exists r, w'. split; [reflexivity|].
    apply (writers_status_success write_code_file "calc.py"
             "def add(a, b): return a + b" populated r w');
      [by right | exact H].
  - vm_compute in H. discriminate H.
Defined.

(** ** Faults of the file system *)

Lemma write_in_io_fault base label name content w e w' :
  io_fault base name w e w' ->
  write_in base label name content w = Raise e w'.
Proof.
  unfold io_fault, write_in. intros [H | (w1 & H1 & H2)].
  - by rewrite H.
  - by rewrite H1, H2.
Qed.

(** C6: when a directory creation of the provisioning, or the opening
    of the target for writing, raises an IO error, [write_test_file] and
    [write_code_file] end with that very exception and return no
    record. *)
Theorem io_fault_propagates
    (base : string) (write : string -> string -> Py (gmap string string))
    (name content : string) (w : World) (e : pyexn) (w' : World) :
  (base, write) = (TEST_BASE_DIR, write_test_file)
  ∨ (base, write) = (CODE_BASE_DIR, write_code_file) ->
  io_fault base name w e w' ->
  write name content w = Raise e w'
  ∧ ∀ r w'', write name content w ≠ Ok r w''.
Proof.
  intros Hb Hf.
  assert (write name content w = Raise e w') as H.
  { destruct Hb as [[= -> ->] | [= -> ->]].
    - rewrite write_test_file_eq. by apply write_in_io_fault.
    - rewrite write_code_file_eq. by apply write_in_io_fault. }
  split; [done|]. intros r w''. by rewrite H.
Qed.

Lemma io_fault_propagates_witness :
  (io_fault CODE_BASE_DIR "calc.py" blocked
     (FileExistsError "simulated_codebase") blocked
   ∧ write_code_file "calc.py" "x" blocked
     = Raise (FileExistsError "simulated_codebase") blocked)
  ∧ (io_fault TEST_BASE_DIR "t.py" readonly_tests
       (PermissionError "simulated_tests/t.py") readonly_tests
     ∧ write_test_file "t.py" "x" readonly_tests
       = Raise (PermissionError "simulated_tests/t.py") readonly_tests).
Proof.
  assert (io_fault CODE_BASE_DIR "calc.py" blocked
            (FileExistsError "simulated_codebase") blocked) as H1.
  { left. vm_compute. reflexivity. }
  assert (io_fault TEST_BASE_DIR "t.py" readonly_tests
            (PermissionError "simulated_tests/t.py") readonly_tests) as H2.
  { right. exists readonly_tests. split; vm_compute; reflexivity. }
  split; (split; [assumption|]).
  - apply (io_fault_propagates CODE_BASE_DIR write_code_file "calc.py" "x"
             blocked _ _ (or_intror eq_refl) H1).
  - apply (io_fault_propagates TEST_BASE_DIR write_test_file "t.py" "x"
             readonly_tests _ _ (or_introl eq_refl) H2).
Defined.

(** ** Writing and reading back *)




(** ** A second write *)

Lemma is_dir_at_insert_file m h k b c :
  is_dir_at m h = false -> is_dir_at m k = true ->
  is_dir_at (<[h := File b c]> m) k = true.
Proof.
  unfold is_dir_at. intros Hh Hk.
  destruct (decide (h = k)) as [->|Hne]; [by rewrite Hk in Hh|].
  by rewrite lookup_insert_ne.
Qed.

Lemma written_present h content line w :
  is_dir_at (nodes w) h = false ->
  workspace_present w = true ->
  workspace_present (written h content line w) = true.
Proof.
  unfold workspace_present. simpl. rewrite !andb_true_iff.
  intros Hh [[H0 H1] H2]. split_and!; by apply is_dir_at_insert_file.
Qed.




(** ** Provisioning again *)

Lemma call_times_fixed (f : Py unit) w :
  f w = Ok tt w -> ∀ n, call_times n f w = Ok tt w.
Proof.
  intros Hf. induction n as [|n IH]; simpl; [done|].
  unfold mbind, Py_bind. by rewrite Hf.
Qed.

(** C5: in a state that permits the creation, any number [n >= 1] of
    calls of [_ensure_dirs] in a row succeeds and leaves the state one
    call leaves; there both directories exist and a further call changes
    nothing; and when both directories exist from the start the call
    succeeds and changes nothing. *)
Theorem ensure_dirs_idempotent (n : nat) (w : World) :
  (1 <= n)%nat ->
  provisionable w = true ->
  ∃ w1,
    _ensure_dirs w = Ok tt w1
    ∧ call_times n _ensure_dirs w = Ok tt w1
    ∧ workspace_present w1 = true
    ∧ _ensure_dirs w1 = Ok tt w1
    ∧ (workspace_present w = true -> w1 = w).
Proof.
  intros Hn Hp. exists (set_nodes w (provision w)).
  pose proof (ensure_dirs_provisionable _ Hp) as Hens.
  pose proof (provision_present _ Hp) as Hpres.
  pose proof (ensure_dirs_present _ Hpres) as Hfix.
  split_and!; try done.
  - destruct n as [|n]; [lia|]. simpl. unfold mbind, Py_bind.
    rewrite Hens. by apply call_times_fixed.
  - intros [_ ->]%present_provisionable. apply set_nodes_id.
Qed.

Lemma ensure_dirs_idempotent_witness :
  (1 <= 3)%nat ∧ provisionable bare = true
  ∧ ∃ w1,
      _ensure_dirs bare = Ok tt w1
      ∧ call_times 3 _ensure_dirs bare = Ok tt w1
      ∧ workspace_present w1 = true
      ∧ _ensure_dirs w1 = Ok tt w1
      ∧ (workspace_present bare = true -> w1 = bare).
Proof.
  split_and!; [lia | vm_compute; reflexivity |].
  apply (ensure_dirs_idempotent 3 bare); [lia | vm_compute; reflexivity].
Defined.

(** ** The scenario of the specification *)

(** C8: in a state that permits the provisioning and the writing of the
    target, [write_test_file("test_calc.py", "def test_x(): assert 1==1")]
    returns a record with status ["success"], a [file_path] that ends
    with ["test_calc.py"] and the whole input, shorter than 100, as
    [content_preview]. *)
Theorem write_test_file_scenario (w : World) :
  provisionable w = true ->
  target_writable w TEST_BASE_DIR "test_calc.py" = true ->
  ∃ r w' p,
    write_test_file "test_calc.py" "def test_x(): assert 1==1" w = Ok r w'
    ∧ r !! "status" = Some "success"
    ∧ r !! "file_path" = Some p
    ∧ PyStr.endswith p "test_calc.py" = true
    ∧ r !! "content_preview" = Some "def test_x(): assert 1==1"
    ∧ PyStr.len "def test_x(): assert 1==1" < 100.
Proof.
  intros Hp Ht.
  pose proof (write_in_returns TEST_BASE_DIR "Test Expert wrote test file: "
                "test_calc.py" "def test_x(): assert 1==1" w
                (or_intror eq_refl) eq_refl Hp Ht) as Hw.
  rewrite <- write_test_file_eq in Hw.
  eexists _, _, _. split_and!; [exact Hw | | | | |].
  - apply write_result_status.
  - apply write_result_file_path.
  - reflexivity.
  - by rewrite write_result_preview.
  - reflexivity.
Qed.

Lemma write_test_file_scenario_witness :
  provisionable bare = true
  ∧ target_writable bare TEST_BASE_DIR "test_calc.py" = true
  ∧ ∃ r w' p,
      write_test_file "test_calc.py" "def test_x(): assert 1==1" bare = Ok r w'
      ∧ r !! "status" = Some "success"
      ∧ r !! "file_path" = Some p
      ∧ PyStr.endswith p "test_calc.py" = true
      ∧ r !! "content_preview" = Some "def test_x(): assert 1==1"
      ∧ PyStr.len "def test_x(): assert 1==1" < 100.
Proof.
  split_and!; [vm_compute; reflexivity..|].
  apply (write_test_file_scenario bare); vm_compute; reflexivity.
Defined.

(** ** Absolute names *)

(** C9, as amended: with an absolute name the join drops the directory,
    so [file_path] is the name itself (and not the directory joined with
    it) and the file is written where the name leads, be that inside a
    workspace directory or not; with a relative name [file_path] is the
    directory, one separator and the name. In both cases the file at
    [file_path] holds the content. *)
Theorem absolute_name_discards_base
    (base : string) (write : string -> string -> Py (gmap string string))
    (name content : string) (w : World) (r : gmap string string) (w' : World) :
  (base, write) = (TEST_BASE_DIR, write_test_file)
  ∨ (base, write) = (CODE_BASE_DIR, write_code_file) ->
  write name content w = Ok r w' ->
  ∃ p h,
    r !! "file_path" = Some p
    ∧ Os.resolve w' p = inr h
    ∧ nodes w' !! h = Some (File true content)
    ∧ (PosixPath.isabs name = true ->
       p = name ∧ p ≠ base +:+ "/" +:+ name ∧ Os.start w' p = [])
    ∧ (PosixPath.isabs name = false ->
       p = base +:+ "/" +:+ name ∧ Os.start w' p = cwd w').
Proof.
  intros Hb Hw.
  assert ((base = CODE_BASE_DIR ∨ base = TEST_BASE_DIR)
          ∧ ∃ label, write_in base label name content w = Ok r w')
    as [Hbase [label Hin]].
  { destruct Hb as [[= -> ->] | [= -> ->]].
    - split; [by right|]. eexists. by rewrite <- write_test_file_eq.
    - split; [by left|]. eexists. by rewrite <- write_code_file_eq. }
  apply write_in_ok_inv in Hin as (w1 & h & _ & _ & Hr & Hd & -> & ->).
  assert (PosixPath.isabs (base +:+ "/" +:+ name) = false) as Hrel.
  { rewrite isabs_app by (by destruct Hbase as [-> | ->]).
    by destruct Hbase as [-> | ->]. }
  exists (PosixPath.join base name), h. split_and!.
  - apply write_result_file_path.
  - by apply resolve_written.
  - simpl. by rewrite lookup_insert_eq.
  - intros Habs. rewrite (join_absolute _ _ Habs). split_and!; [done| |].
    + intros Heq. rewrite <- Heq in Hrel. congruence.
    + unfold Os.start. by rewrite Habs.
  - intros Habs. rewrite (join_workspace _ _ Hbase Habs). split; [done|].
    unfold Os.start. by rewrite Hrel.
Qed.

Lemma absolute_name_discards_base_witness :
  ∃ r w',
    write_code_file "/w/calc.py" "x" bare = Ok r w'
    ∧ ∃ p h,
        r !! "file_path" = Some p
        ∧ Os.resolve w' p = inr h
        ∧ nodes w' !! h = Some (File true "x")
        ∧ (PosixPath.isabs "/w/calc.py" = true ->
           p = "/w/calc.py"
           ∧ p ≠ CODE_BASE_DIR +:+ "/" +:+ "/w/calc.py"
           ∧ Os.start w' p = [])
        ∧ (PosixPath.isabs "/w/calc.py" = false ->
           p = CODE_BASE_DIR +:+ "/" +:+ "/w/calc.py"
           ∧ Os.start w' p = cwd w').
Proof.
  destruct (write_code_file "/w/calc.py" "x" bare) as [r w'|e w'] eqn:H.
  - exists r, w'. split; [reflexivity|].
    apply (absolute_name_discards_base CODE_BASE_DIR write_code_file
             "/w/calc.py" "x" bare r w' (or_intror eq_refl) H).
  - vm_compute in H. discriminate H.
Defined.

(** C9, as stated, fails: the absolute name [/w/simulated_tests/t.py],
    given in the working directory [/w], is written inside the workspace
    directory for tests. *)
Lemma absolute_name_inside_workspace :
  PosixPath.isabs "/w/simulated_tests/t.py" = true
  ∧ ∃ r w',
      write_test_file "/w/simulated_tests/t.py" "x" bare = Ok r w'
      ∧ r !! "file_path" = Some "/w/simulated_tests/t.py"
      ∧ Os.resolve w' "/w/simulated_tests/t.py"
        = inr ["w"; "simulated_tests"; "t.py"]
      ∧ nodes w' !! ["w"; "simulated_tests"; "t.py"] = Some (File true "x")
      ∧ in_workspace w' ["w"; "simulated_tests"; "t.py"].
Proof.
  split; [reflexivity|].
  destruct (write_test_file "/w/simulated_tests/t.py" "x" bare)
    as [r w'|e w'] eqn:H; vm_compute in H; [|discriminate H].
  injection H as <- <-. eexists _, _. split; [reflexivity|].
  split_and!; try (vm_compute; reflexivity).
  right. split; [|discriminate]. by exists ["t.py"].
Qed.

(** ** The shell wrapper *)







(** ** More on the file system calls *)

Lemma length_app_str a b :
  String.length (a +:+ b) = (String.length a + String.length b)%nat.
Proof. induction a as [|c r IH]; simpl; [done|]. by f_equal. Qed.

Lemma substring_skip a b : ∀ n,
  String.substring (String.length a + n) (String.length b) (a +:+ b)
  = String.substring n (String.length b) b.
Proof. induction a as [|c r IH]; intros n; simpl; [done|]. apply IH. Qed.

Lemma endswith_app a b : PyStr.endswith (a +:+ b) b = true.
Proof.
  unfold PyStr.endswith. rewrite length_app_str.
  apply andb_true_iff. split; [apply Nat.leb_le; lia|].
  replace (String.length a + String.length b - String.length b)%nat
    with (String.length a + 0)%nat by lia.
  rewrite substring_skip, substring_0_all by lia. apply String.eqb_refl.
Qed.

Lemma app_assoc_str a b c : (a +:+ b) +:+ c = a +:+ b +:+ c.
Proof.
  induction a as [|x r IH]; [done|].
  change (String x ((r +:+ b) +:+ c) = String x (r +:+ b +:+ c)). by f_equal.
Qed.

Lemma join_endswith a b : PyStr.endswith (PosixPath.join a b) b = true.
Proof.
  unfold PosixPath.join.
  destruct (_ || _); [apply (endswith_app "" b)|].
  destruct (PyStr.endswith a PosixPath.sep); [apply endswith_app|].
  rewrite <- app_assoc_str. apply endswith_app.
Qed.


Lemma add_dir_lookup_some k m k' x :
  m !! k' = Some x -> add_dir k m !! k' = Some x.
Proof.
  unfold add_dir. intros H. destruct (m !! k) eqn:Hk; [done|].
  destruct (decide (k = k')) as [<-|Hne]; [congruence|].
  by rewrite lookup_insert_ne.
Qed.

Lemma provision_lookup_some w k x :
  nodes w !! k = Some x -> provision w !! k = Some x.
Proof. intros H. unfold provision. by do 2 apply add_dir_lookup_some. Qed.

Lemma ensure_dirs_raise_inv w e w' :
  _ensure_dirs w = Raise e w' ->
  provisionable w = false
  ∧ (w' = w ∨ w' = set_nodes w (add_dir (cwd w ++ [CODE_BASE_DIR]) (nodes w))).
Proof.
  intros H. destruct (provisionable w) eqn:Hp.
  { by rewrite (ensure_dirs_provisionable _ Hp) in H. }
  split; [done|]. unfold _ensure_dirs, mbind, Py_bind in H.
  destruct (creatable w CODE_BASE_DIR) eqn:Hc.
  - rewrite (makedirs_creatable _ _ valid_CODE_BASE_DIR Hc) in H.
    destruct (makedirs_not_creatable
                (set_nodes w (add_dir (cwd w ++ [CODE_BASE_DIR]) (nodes w)))
                _ valid_TEST_BASE_DIR) as [e' He'].
    { rewrite creatable_add_dir by done.
      unfold provisionable in Hp. by rewrite Hc in Hp. }
    rewrite He' in H. injection H as _ <-. by right.
  - destruct (makedirs_not_creatable w _ valid_CODE_BASE_DIR Hc) as [e' He'].
    rewrite He' in H. injection H as _ <-. by left.
Qed.

(** ** What a write leaves alone *)

(** X1: a write that returns has put the content into one file and has
    left every other object of the file system as it was: nothing that
    existed is changed or removed, and besides the target only the two
    workspace directories can be new. *)
Theorem writers_leave_other_objects
    (write : string -> string -> Py (gmap string string))
    (name content : string) (w : World) (r : gmap string string) (w' : World) :
  write = write_test_file ∨ write = write_code_file ->
  write name content w = Ok r w' ->
  ∃ h,
    nodes w' !! h = Some (File true content)
    ∧ cwd w' = cwd w
    ∧ (∀ k x, k ≠ h -> nodes w !! k = Some x -> nodes w' !! k = Some x)
    ∧ (∀ k, k ≠ h -> k ≠ cwd w ++ [CODE_BASE_DIR] ->
            k ≠ cwd w ++ [TEST_BASE_DIR] ->
            nodes w' !! k = nodes w !! k).
Proof.
  intros (base & label & _ & Heq)%writer_cases Hw. rewrite Heq in Hw.
  apply write_in_ok_inv in Hw as (w1 & h & Hens & _ & _ & _ & _ & ->).
  apply ensure_dirs_ok_inv in Hens as [_ ->].
  exists h. simpl. split_and!.
  - by rewrite lookup_insert_eq.
  - done.
  - intros k x Hk Hx. rewrite lookup_insert_ne by done.
    by apply provision_lookup_some.
  - intros k Hk Hc Ht. rewrite lookup_insert_ne by done.
    by apply provision_lookup_other.
Qed.

Lemma writers_leave_other_objects_witness :
  ∃ r w',
    write_test_file "test_calc.py" "assert True" populated = Ok r w'
    ∧ ∃ h,
        nodes w' !! h = Some (File true "assert True")
        ∧ cwd w' = cwd populated
        ∧ (∀ k x, k ≠ h -> nodes populated !! k = Some x ->
                  nodes w' !! k = Some x)
        ∧ (∀ k, k ≠ h -> k ≠ cwd populated ++ [CODE_BASE_DIR] ->
                k ≠ cwd populated ++ [TEST_BASE_DIR] ->
                nodes w' !! k = nodes populated !! k).
Proof.
  destruct (write_test_file "test_calc.py" "assert True" populated)
    as [r w'|e w'] eqn:H.
  - exists r, w'. split; [reflexivity|].
    apply (writers_leave_other_objects write_test_file "test_calc.py"
             "assert True" populated r w'); [by left | exact H].
  - vm_compute in H. discriminate H.
Defined.

(** X2: for every name, the [file_path] of a returned record ends with
    the name, the call has printed exactly one line, which ends with
    that path, and both workspace directories exist afterwards. *)
Theorem writers_report_path
    (write : string -> string -> Py (gmap string string))
    (name content : string) (w : World) (r : gmap string string) (w' : World) :
  write = write_test_file ∨ write = write_code_file ->
  write name content w = Ok r w' ->
  ∃ p line,
    r !! "file_path" = Some p
    ∧ PyStr.endswith p name = true
    ∧ console w' = console w ++ [line]
    ∧ PyStr.endswith line p = true
    ∧ workspace_present w' = true.
Proof.
  intros (base & label & _ & Heq)%writer_cases Hw. rewrite Heq in Hw.
  apply write_in_ok_inv in Hw as (w1 & h & Hens & _ & _ & Hd & -> & ->).
  apply ensure_dirs_ok_inv in Hens as [Hp ->].
  exists (PosixPath.join base name), (label +:+ PosixPath.join base name).
  split_and!.
  - apply write_result_file_path.
  - apply join_endswith.
  - done.
  - apply endswith_app.
  - apply written_present; [done|]. by apply provision_present.
Qed.

Lemma writers_report_path_witness :
  ∃ r w',
    write_code_file "calc.py" "x = 1" bare = Ok r w'
    ∧ ∃ p line,
        r !! "file_path" = Some p
        ∧ PyStr.endswith p "calc.py" = true
        ∧ console w' = console bare ++ [line]
        ∧ PyStr.endswith line p = true
        ∧ workspace_present w' = true.
Proof.
  destruct (write_code_file "calc.py" "x = 1" bare) as [r w'|e w'] eqn:H.
  - exists r, w'. split; [reflexivity|].
    apply (writers_report_path write_code_file "calc.py" "x = 1" bare r w');
      [by right | exact H].
  - vm_compute in H. discriminate H.
Defined.

(** ** Names that cannot be written *)

Lemma resolve_base_dir w base name :
  base = CODE_BASE_DIR ∨ base = TEST_BASE_DIR ->
  name = "" ∨ name = PosixPath.curdir ∨ name = PosixPath.pardir ->
  workspace_present w = true ->
  ∃ k, Os.resolve w (PosixPath.join base name) = inr k
       ∧ is_dir_at (nodes w) k = true.
Proof.
  intros Hb Hn Hpres. unfold workspace_present in Hpres.
  apply andb_true_iff in Hpres as [[H0 H1]%andb_true_iff H2].
  assert (is_dir_at (nodes w) (cwd w ++ [base]) = true) as Hbase
    by (by destruct Hb as [-> | ->]).
  assert (∃ k, Os.walk (nodes w) (PosixPath.join base name) (cwd w)
                 [base; name] = inr k ∧ is_dir_at (nodes w) k = true) as Hw.
  { unfold is_dir_at in *. simpl.
    destruct (nodes w !! cwd w) as [[?|? ?]|] eqn:E0; try done.
    replace (String.eqb base "" || String.eqb base PosixPath.curdir) with false
      by (by destruct Hb as [-> | ->]).
    replace (String.eqb base PosixPath.pardir) with false
      by (by destruct Hb as [-> | ->]).
    destruct (nodes w !! (cwd w ++ [base])) as [[?|? ?]|] eqn:E1; try done.
    destruct Hn as [-> | [-> | ->]]; simpl.
    - exists (cwd w ++ [base]). by rewrite E1.
    - exists (cwd w ++ [base]). by rewrite E1.
    - exists (cwd w). rewrite removelast_last. by rewrite E0. }
  destruct Hw as (k & Hk & Hd). exists k. split; [|done].
  rewrite <- Hk. clear Hk.
  destruct Hb as [-> | ->]; destruct Hn as [-> | [-> | ->]]; reflexivity.
Qed.

(** X3: the names [""], ["."] and [".."] are never written: either
    writer raises for every content and in every state; where the
    provisioning is permitted the exception is the [IsADirectoryError]
    of the opening, raised after the directories have been created. *)
Theorem directory_names_raise
    (base : string) (write : string -> string -> Py (gmap string string))
    (name content : string) (w : World) :
  (base, write) = (TEST_BASE_DIR, write_test_file)
  ∨ (base, write) = (CODE_BASE_DIR, write_code_file) ->
  name = "" ∨ name = "." ∨ name = ".." ->
  ∃ e w',
    write name content w = Raise e w'
    ∧ (provisionable w = true ->
       e = IsADirectoryError (PosixPath.join base name)
       ∧ w' = set_nodes w (provision w)).
Proof.
  intros Hb Hn.
  assert ((base = CODE_BASE_DIR ∨ base = TEST_BASE_DIR)
          ∧ ∃ label, write name content w = write_in base label name content w)
    as [Hbase [label ->]].
  { destruct Hb as [[= -> ->] | [= -> ->]].
    - split; [by right|]. eexists. apply write_test_file_eq.
    - split; [by left|]. eexists. apply write_code_file_eq. }
  unfold write_in. destruct (provisionable w) eqn:Hp.
  - rewrite (ensure_dirs_provisionable _ Hp).
    destruct (resolve_base_dir (set_nodes w (provision w)) base name Hbase Hn
                (provision_present _ Hp)) as (k & Hk & Hd).
    unfold Os.open_w. rewrite Hk. unfold is_dir_at in Hd.
    destruct (nodes (set_nodes w (provision w)) !! k) as [[?|? ?]|]; try done.
    eauto.
  - destruct (ensure_dirs_not_provisionable _ Hp) as (e & w1 & ->).
    exists e, w1. split; [done|]. done.
Qed.

Lemma directory_names_raise_witness :
  ("" = "" ∨ "" = "." ∨ "" = "..")
  ∧ ∃ e w',
      write_test_file "" "x" bare = Raise e w'
      ∧ (provisionable bare = true ->
         e = IsADirectoryError (PosixPath.join TEST_BASE_DIR "")
         ∧ w' = set_nodes bare (provision bare)).
Proof.
  split; [by left|].
  apply (directory_names_raise TEST_BASE_DIR write_test_file "" "x" bare);
    [by left | by left].
Defined.

(** ** What a failed write leaves behind *)



(** ** Names with a directory part *)


Lemma has_sep_app a b :
  has_sep (a +:+ b) = has_sep a || has_sep b.
Proof.
  induction a as [|x r IH]; [done|].
  change (has_sep (String x (r +:+ b))
          = has_sep (String x r) || has_sep b).
  simpl. by rewrite IH, orb_assoc.
Qed.




(** ** Names that leave the workspace *)




(** ** A test file and a code file of one name *)




(** ** More on the provisioning *)

Lemma makedirs_not_creatable_OSError w d :
  valid_name d = true -> creatable w d = false ->
  ∃ e, Os.makedirs d true w = Raise e w ∧ Os.is_OSError e = true.
Proof.
  intros Hv Hc. rewrite (makedirs_valid _ _ Hv). unfold creatable in *.
  destruct (nodes w !! cwd w) as [[b|? ?]|]; eauto.
  destruct (nodes w !! (cwd w ++ [d])) as [[?|? ?]|]; try done; eauto.
  rewrite Hc. eauto.
Qed.

(** X8: [_ensure_dirs] returns exactly in the states where the working
    directory is a directory and each of the two names is a directory
    already or is absent with the working directory writable; in every
    other state it raises an [OSError]. *)
Theorem ensure_dirs_returns_iff (w : World) :
  ((∃ w1, _ensure_dirs w = Ok tt w1) ↔ provisionable w = true)
  ∧ ((∃ e w1, _ensure_dirs w = Raise e w1 ∧ Os.is_OSError e = true)
     ↔ provisionable w = false).
Proof.
  split; split.
  - intros [w1 H]. by apply ensure_dirs_ok_inv in H as [? _].
  - intros Hp. eexists. by apply ensure_dirs_provisionable.
  - intros (e & w1 & H & _). by apply ensure_dirs_raise_inv in H as [? _].
  - intros Hp. unfold provisionable in Hp.
    unfold _ensure_dirs, mbind, Py_bind.
    destruct (creatable w CODE_BASE_DIR) eqn:Hc.
    + rewrite (makedirs_creatable _ _ valid_CODE_BASE_DIR Hc).
      destruct (makedirs_not_creatable_OSError
                  (set_nodes w (add_dir (cwd w ++ [CODE_BASE_DIR]) (nodes w)))
                  _ valid_TEST_BASE_DIR) as (e & He & Hos).
      { by rewrite creatable_add_dir. }
      rewrite He. eauto.
    + destruct (makedirs_not_creatable_OSError w _ valid_CODE_BASE_DIR Hc)
        as (e & He & Hos).
      rewrite He. eauto.
Qed.

(** X9: however [_ensure_dirs] ends, it has printed nothing and has
    changed or removed no object that existed; only the two workspace
    directories can be new. *)
Theorem ensure_dirs_only_adds (w w' : World) :
  (∃ u, _ensure_dirs w = Ok u w') ∨ (∃ e, _ensure_dirs w = Raise e w') ->
  cwd w' = cwd w
  ∧ console w' = console w
  ∧ (∀ k x, nodes w !! k = Some x -> nodes w' !! k = Some x)
  ∧ (∀ k, k ≠ cwd w ++ [CODE_BASE_DIR] -> k ≠ cwd w ++ [TEST_BASE_DIR] ->
          nodes w' !! k = nodes w !! k).
Proof.
  intros [[u H] | [e H]].
  - apply ensure_dirs_ok_inv in H as [_ ->]. split_and!; try done.
    + intros k x. apply provision_lookup_some.
    + intros k. apply provision_lookup_other.
  - apply ensure_dirs_raise_inv in H as [_ [-> | ->]]; [done|].
    split_and!; try done.
    + intros k x. apply add_dir_lookup_some.
    + intros k Hc _. simpl. unfold add_dir.
      destruct (nodes w !! (cwd w ++ [CODE_BASE_DIR])); [done|].
      by rewrite lookup_insert_ne.
Qed.

Lemma ensure_dirs_only_adds_witness :
  ∃ w',
    ((∃ u, _ensure_dirs blocked_tests = Ok u w')
     ∨ (∃ e, _ensure_dirs blocked_tests = Raise e w'))
    ∧ cwd w' = cwd blocked_tests
    ∧ console w' = console blocked_tests
    ∧ (∀ k x, nodes blocked_tests !! k = Some x -> nodes w' !! k = Some x)
    ∧ (∀ k, k ≠ cwd blocked_tests ++ [CODE_BASE_DIR] ->
            k ≠ cwd blocked_tests ++ [TEST_BASE_DIR] ->
            nodes w' !! k = nodes blocked_tests !! k).
Proof.
  destruct (_ensure_dirs blocked_tests) as [u w'|e w'] eqn:H.
  - exists w'. split; [left; by exists u|].
    apply (ensure_dirs_only_adds blocked_tests w'). left. by exists u.
  - exists w'. split; [right; by exists e|].
    apply (ensure_dirs_only_adds blocked_tests w'). right. by exists e.
Defined.

(** X10: a regular file in the place of the directory for tests is not
    forgiven by [exist_ok]: when the code directory is there or can be
    created, [_ensure_dirs] raises [FileExistsError] for
    ["simulated_tests"], after the code directory has been ensured,
    which stays; the file is left as it was. *)
Theorem regular_file_blocks_provisioning (w : World) (b : bool) (c : string) :
  creatable w CODE_BASE_DIR = true ->
  nodes w !! (cwd w ++ [TEST_BASE_DIR]) = Some (File b c) ->
  ∃ w',
    _ensure_dirs w = Raise (FileExistsError TEST_BASE_DIR) w'
    ∧ is_dir_at (nodes w') (cwd w ++ [CODE_BASE_DIR]) = true
    ∧ nodes w' !! (cwd w ++ [TEST_BASE_DIR]) = Some (File b c).
Proof.
  intros Hc Hfile. unfold _ensure_dirs, mbind, Py_bind.
  rewrite (makedirs_creatable _ _ valid_CODE_BASE_DIR Hc).
  rewrite (makedirs_valid _ _ valid_TEST_BASE_DIR). simpl.
  assert (add_dir (cwd w ++ [CODE_BASE_DIR]) (nodes w) !! cwd w
          = nodes w !! cwd w) as Hcwd.
  { unfold add_dir. destruct (nodes w !! (cwd w ++ [CODE_BASE_DIR])); [done|].
    rewrite lookup_insert_ne; [done|].
    intros Heq. symmetry in Heq. by apply app_nonempty_ne in Heq. }
  rewrite Hcwd, (add_dir_lookup_some _ _ _ _ Hfile).
  unfold creatable in Hc.
  destruct (nodes w !! cwd w) as [[b0|? ?]|]; try done.
  eexists. split; [reflexivity|]. simpl. split.
  - apply is_dir_at_add_dir_eq.
    by destruct (nodes w !! (cwd w ++ [CODE_BASE_DIR])) as [[?|? ?]|].
  - by apply add_dir_lookup_some.
Qed.

Lemma regular_file_blocks_provisioning_witness :
  creatable blocked_tests CODE_BASE_DIR = true
  ∧ nodes blocked_tests !! (cwd blocked_tests ++ [TEST_BASE_DIR])
    = Some (File true "")
  ∧ ∃ w',
      _ensure_dirs blocked_tests = Raise (FileExistsError TEST_BASE_DIR) w'
      ∧ is_dir_at (nodes w') (cwd blocked_tests ++ [CODE_BASE_DIR]) = true
      ∧ nodes w' !! (cwd blocked_tests ++ [TEST_BASE_DIR])
        = Some (File true "").
Proof.
  split_and!; [vm_compute; reflexivity..|].
  apply (regular_file_blocks_provisioning blocked_tests true "");
    vm_compute; reflexivity.
Defined.

(** ** Exceptions the shell wrapper does not catch *)

(** X11: an exception of the launch other than [CalledProcessError] is
    not turned into a record: [run_shell_command] ends with that
    exception, after its line has been printed. *)
Theorem run_shell_command_propagates
    (sh : string -> Py CompletedProcess) (signal_name : Z -> option string)
    (command : string) (w : World) (e : pyexn) (w1 : World) :
  sh command (said ("Installation Expert executing command: " +:+ command) w)
  = Raise e w1 ->
  (∀ rc cmd out err, e ≠ CalledProcessError rc cmd out err) ->
  run_shell_command sh signal_name command w = Raise e w1.
Proof.
  intros Hsh Hne.
  unfold run_shell_command, Subprocess.run, try_except, mbind, Py_bind, print.
  fold (said ("Installation Expert executing command: " +:+ command) w).
  rewrite Hsh. destruct e as [| | | | |rc cmd out err|]; try done.
  by destruct (Hne rc cmd out err).
Qed.

Lemma run_shell_command_propagates_witness :
  dead_sh "make" (said ("Installation Expert executing command: " +:+ "make") bare)
  = Raise (OtherError "BlockingIOError: Resource temporarily unavailable")
      (said ("Installation Expert executing command: " +:+ "make") bare)
  ∧ (∀ rc cmd out err,
       OtherError "BlockingIOError: Resource temporarily unavailable"
       ≠ CalledProcessError rc cmd out err)
  ∧ run_shell_command dead_sh toy_signal_name "make" bare
    = Raise (OtherError "BlockingIOError: Resource temporarily unavailable")
        (said ("Installation Expert executing command: " +:+ "make") bare).
Proof.
  split; [reflexivity|]. split; [discriminate|].
  apply (run_shell_command_propagates dead_sh toy_signal_name "make" bare);
    [reflexivity | discriminate].
Defined.

(** ** The analysis of a failure *)

Lemma is_failed_get t :
  is_failed t ->
  PyVal.get t "status" = inr (VStr "failed").
Proof. intros (d & -> & Hd). simpl. by rewrite Hd. Qed.


Lemma scans_find_first pre t post :
  Forall not_failed pre -> is_failed t ->
  any_failed (pre ++ t :: post) = inr true
  ∧ next_failed (pre ++ t :: post) = inr t.
Proof.
  intros Hpre Ht. induction Hpre as [|x pre (v & Hv & Hne) _ IH]; simpl.
  - by rewrite (is_failed_get _ Ht).
  - by rewrite Hv, Hne.
Qed.

Lemma scans_find_none ts :
  Forall not_failed ts -> any_failed ts = inr false.
Proof.
  intros Hts. induction Hts as [|x ts (v & Hv & Hne) _ IH]; simpl; [done|].
  by rewrite Hv, Hne.
Qed.

Lemma scans_stop_at_other pre x post :
  Forall not_failed pre -> (∀ d, x ≠ VDict d) ->
  any_failed (pre ++ x :: post)
  = inl (PyVal.AttributeError (PyVal.type_name x) "get").
Proof.
  intros Hpre Hx. induction Hpre as [|y pre (v & Hv & Hne) _ IH]; simpl.
  - destruct x; try done. by destruct (Hx d).
  - by rewrite Hv, Hne.
Qed.



(** What [analyze_failure] does, read off its two scans. *)
Lemma analyze_failure_unfold repr fd w :
  analyze_failure repr fd w
  = match fd !! "details" with
    | None => Ok no_failures_found (analysing repr fd w)
    | Some details =>
        match PyVal.iterate details with
        | inl e => Raise e (analysing repr fd w)
        | inr ts =>
            match scan repr ts with
            | inl e => Raise e (analysing repr fd w)
            | inr None => Ok no_failures_found (analysing repr fd w)
            | inr (Some report) =>
                Ok (analysis_complete report)
                   (said report (analysing repr fd w))
            end
        end
    end.
Proof.
  unfold analyze_failure, scan, mbind, Py_bind, print, lift, PyVal.dict_getitem.
  fold (analysing repr fd w).
  destruct (fd !! "details") as [details|] eqn:Hd; simpl; [|done].
  destruct (PyVal.iterate details) as [e|ts]; [done|].
  destruct (any_failed ts) as [e|[]]; try done.
  destruct (next_failed ts) as [e|t]; [done|].
  destruct (PyVal.getitem t "test") as [e|a]; [done|].
  destruct (PyVal.getitem t "error") as [e|b]; [done|].
  reflexivity.
Qed.

Lemma analysis_complete_lookup report :
  analysis_complete report !! "status" = Some "analysis_complete"
  ∧ analysis_complete report !! "bug_report" = Some report
  ∧ analysis_complete report !! "suggested_fix"
    = Some "Adjust the subtraction logic.".
Proof. unfold analysis_complete. split_and!; by simplify_map_eq. Qed.

Lemma analyze_failure_first repr fd w pre post d a b :
  fd !! "details" = Some (VList (pre ++ VDict d :: post)) ->
  Forall not_failed pre ->
  d !! "status" = Some (VStr "failed") ->
  d !! "test" = Some a ->
  d !! "error" = Some b ->
  analyze_failure repr fd w
  = Ok (analysis_complete (bug_report repr a b))
       (said (bug_report repr a b) (analysing repr fd w)).
Proof.
  intros Hfd Hpre Hs Ha Hb.
  destruct (scans_find_first pre (VDict d) post Hpre) as [Hany Hnext].
  { by exists d. }
  rewrite analyze_failure_unfold, Hfd. simpl. unfold scan.
  rewrite Hany, Hnext. simpl. unfold PyVal.dict_getitem. by rewrite Ha, Hb.
Qed.

Lemma analyze_failure_none repr fd w :
  fd !! "details" = None
  ∨ (∃ ts, fd !! "details" = Some (VList ts) ∧ Forall not_failed ts) ->
  analyze_failure repr fd w = Ok no_failures_found (analysing repr fd w).
Proof.
  intros [Hfd | (ts & Hfd & Hts)]; rewrite analyze_failure_unfold, Hfd.
  - done.
  - simpl. unfold scan. by rewrite (scans_find_none _ Hts).
Qed.

(** X12: when [details] is a list whose first entry with status
    ["failed"] has a name and an error, and the entries before it are
    dictionaries, [analyze_failure] returns [analysis_complete] with the
    report on that entry, whatever comes after it in the list, and
    prints the report. *)
Theorem analyze_failure_reports_first
    (repr : pyval -> string) (fd : gmap string pyval) (w : World)
    (pre post : list pyval) (d : gmap string pyval) (a b : pyval) :
  fd !! "details" = Some (VList (pre ++ VDict d :: post)) ->
  Forall not_failed pre ->
  d !! "status" = Some (VStr "failed") ->
  d !! "test" = Some a ->
  d !! "error" = Some b ->
  ∃ r w',
    analyze_failure repr fd w = Ok r w'
    ∧ r !! "status" = Some "analysis_complete"
    ∧ r !! "bug_report" = Some (bug_report repr a b)
    ∧ r !! "suggested_fix" = Some "Adjust the subtraction logic."
    ∧ console w'
      = console w ++ ["Debugger is analyzing failure: " +:+ repr (VDict fd);
                      bug_report repr a b].
Proof.
  intros Hfd Hpre Hs Ha Hb.
  rewrite (analyze_failure_first repr fd w pre post d a b) by done.
  destruct (analysis_complete_lookup (bug_report repr a b)) as (H1 & H2 & H3).
  eexists _, _. split_and!; [reflexivity|done..|].
  simpl. by rewrite <- app_assoc.
Qed.

Lemma analyze_failure_reports_first_witness :
  simulated_test_output !! "details"
  = Some (VList ([test_entry "test_add_numbers" "passed" None]
                 ++ VDict {[ "test" := VStr "test_subtract_numbers";
                             "status" := VStr "failed";
                             "error" := VStr "AssertionError: 3 != 2" ]}
                 :: []))
  ∧ ∃ r w',
      analyze_failure toy_repr simulated_test_output bare = Ok r w'
      ∧ r !! "status" = Some "analysis_complete"
      ∧ r !! "bug_report"
        = Some (bug_report toy_repr (VStr "test_subtract_numbers")
                  (VStr "AssertionError: 3 != 2"))
      ∧ r !! "suggested_fix" = Some "Adjust the subtraction logic."
      ∧ console w'
        = console bare
          ++ ["Debugger is analyzing failure: "
              +:+ toy_repr (VDict simulated_test_output);
              bug_report toy_repr (VStr "test_subtract_numbers")
                (VStr "AssertionError: 3 != 2")].
Proof.
  split; [vm_compute; reflexivity|].
  apply (analyze_failure_reports_first toy_repr simulated_test_output bare
           [test_entry "test_add_numbers" "passed" None] []
           {[ "test" := VStr "test_subtract_numbers";
              "status" := VStr "failed";
              "error" := VStr "AssertionError: 3 != 2" ]}).
  - vm_compute; reflexivity.
  - constructor; [|constructor]. exists (VStr "passed").
    split; vm_compute; reflexivity.
  - vm_compute; reflexivity.
  - vm_compute; reflexivity.
  - vm_compute; reflexivity.
Defined.

(** X13: without a ["details"] key, or with a list of dictionaries none
    of which has the status ["failed"], [analyze_failure] returns the
    record [{"status": "no_failures_found"}] and prints its first line
    only. *)
Theorem analyze_failure_no_failures
    (repr : pyval -> string) (fd : gmap string pyval) (w : World) :
  fd !! "details" = None
  ∨ (∃ ts, fd !! "details" = Some (VList ts) ∧ Forall not_failed ts) ->
  analyze_failure repr fd w
  = Ok {[ "status" := "no_failures_found" ]}
       (said ("Debugger is analyzing failure: " +:+ repr (VDict fd)) w).
Proof.
  intros H. by rewrite analyze_failure_none.
Qed.

Lemma analyze_failure_no_failures_witness :
  ({[ "details" := VList [test_entry "test_add" "passed" None;
                          test_entry "test_sub" "skipped" None] ]}
     : gmap string pyval) !! "details"
  = Some (VList [test_entry "test_add" "passed" None;
                 test_entry "test_sub" "skipped" None])
  ∧ Forall not_failed [test_entry "test_add" "passed" None;
                       test_entry "test_sub" "skipped" None]
  ∧ analyze_failure toy_repr
      {[ "details" := VList [test_entry "test_add" "passed" None;
                             test_entry "test_sub" "skipped" None] ]} bare
    = Ok {[ "status" := "no_failures_found" ]}
         (said ("Debugger is analyzing failure: "
                +:+ toy_repr
                      (VDict {[ "details" :=
                                  VList [test_entry "test_add" "passed" None;
                                         test_entry "test_sub" "skipped" None] ]}))
            bare).
Proof.
  assert (Forall not_failed [test_entry "test_add" "passed" None;
                             test_entry "test_sub" "skipped" None]) as Hts.
  { repeat constructor.
    - exists (VStr "passed"). split; vm_compute; reflexivity.
    - exists (VStr "skipped"). split; vm_compute; reflexivity. }
  split; [vm_compute; reflexivity|]. split; [exact Hts|].
  apply (analyze_failure_no_failures toy_repr _ bare).
  right. eexists. split; [vm_compute; reflexivity | exact Hts].
Defined.

(** X14: [analyze_failure] does not find the failure in the record
    [run_tests] returns: the details lie one level down, under
    ["test_results"], so the record as a whole gives
    [no_failures_found], while its ["test_results"] give the report on
    [test_subtract_numbers]. *)
Theorem run_tests_then_analyze_failure (repr : pyval -> string) (w : World) :
  ∃ r1 w1,
    run_tests repr w = Ok r1 w1
    ∧ r1 !! "status" = Some (VStr "failed")
    ∧ (∃ r2 w2, analyze_failure repr r1 w1 = Ok r2 w2
                ∧ r2 !! "status" = Some "no_failures_found")
    ∧ (∃ inner r3 w3,
         r1 !! "test_results" = Some (VDict inner)
         ∧ analyze_failure repr inner w1 = Ok r3 w3
         ∧ r3 !! "status" = Some "analysis_complete"
         ∧ r3 !! "bug_report"
           = Some "Bug in test_subtract_numbers: AssertionError: 3 != 2. Suggesting fix in simulated_codebase/some_module.py").
Proof.
  eexists _, _. split; [reflexivity|]. split; [by simplify_map_eq|]. split.
  - eexists _, _. split.
    + apply analyze_failure_none. left. by simplify_map_eq.
    + unfold no_failures_found. by simplify_map_eq.
  - exists simulated_test_output. eexists _, _. split_and!.
    + by simplify_map_eq.
    + apply (analyze_failure_first repr simulated_test_output _
               [test_entry "test_add_numbers" "passed" None] []
               {[ "test" := VStr "test_subtract_numbers";
                  "status" := VStr "failed";
                  "error" := VStr "AssertionError: 3 != 2" ]}
               (VStr "test_subtract_numbers") (VStr "AssertionError: 3 != 2")).
      * vm_compute; reflexivity.
      * constructor; [|constructor]. exists (VStr "passed").
        split; vm_compute; reflexivity.
      * vm_compute; reflexivity.
      * vm_compute; reflexivity.
      * vm_compute; reflexivity.
    + apply analysis_complete_lookup.
    + apply analysis_complete_lookup.
Qed.

(** X15: a failed entry without a name or without an error is not
    reported in the record: [analyze_failure] raises the [KeyError] of
    the missing key (of ["test"] when both are missing) and prints no
    report. *)
Theorem analyze_failure_missing_key
    (repr : pyval -> string) (fd : gmap string pyval) (w : World)
    (pre post : list pyval) (d : gmap string pyval) :
  fd !! "details" = Some (VList (pre ++ VDict d :: post)) ->
  Forall not_failed pre ->
  d !! "status" = Some (VStr "failed") ->
  d !! "test" = None ∨ d !! "error" = None ->
  ∃ key,
    analyze_failure repr fd w
    = Raise (PyVal.KeyError key)
        (said ("Debugger is analyzing failure: " +:+ repr (VDict fd)) w)
    ∧ d !! key = None
    ∧ (key = "test" ∨ (key = "error" ∧ is_Some (d !! "test"))).
Proof.
  intros Hfd Hpre Hs Hmiss.
  destruct (scans_find_first pre (VDict d) post Hpre) as [Hany Hnext].
  { by exists d. }
  rewrite analyze_failure_unfold, Hfd. simpl. unfold scan.
  rewrite Hany, Hnext. simpl. unfold PyVal.dict_getitem.
  destruct (d !! "test") as [a|] eqn:Ha.
  - destruct Hmiss as [?|Hb]; [done|]. rewrite Hb.
    exists "error". split_and!; [done|done|right; eauto].
  - exists "test". split_and!; [done|done|by left].
Qed.

Lemma analyze_failure_missing_key_witness :
  ({[ "details" := VList [test_entry "test_sub" "failed" None] ]}
     : gmap string pyval) !! "details"
  = Some (VList ([] ++ VDict {[ "test" := VStr "test_sub";
                                "status" := VStr "failed" ]} :: []))
  ∧ ∃ key,
      analyze_failure toy_repr
        {[ "details" := VList [test_entry "test_sub" "failed" None] ]} bare
      = Raise (PyVal.KeyError key)
          (said ("Debugger is analyzing failure: "
                 +:+ toy_repr
                       (VDict {[ "details" :=
                                   VList [test_entry "test_sub" "failed" None] ]}))
             bare)
      ∧ ({[ "test" := VStr "test_sub"; "status" := VStr "failed" ]}
           : gmap string pyval) !! key = None
      ∧ (key = "test"
         ∨ (key = "error"
            ∧ is_Some (({[ "test" := VStr "test_sub";
                           "status" := VStr "failed" ]}
                          : gmap string pyval) !! "test"))).
Proof.
  split; [vm_compute; reflexivity|].
  apply (analyze_failure_missing_key toy_repr
           {[ "details" := VList [test_entry "test_sub" "failed" None] ]} bare
           [] [] {[ "test" := VStr "test_sub"; "status" := VStr "failed" ]}).
  - vm_compute; reflexivity.
  - constructor.
  - vm_compute; reflexivity.
  - right. vm_compute; reflexivity.
Defined.

(** X16: an entry that is not a dictionary, met before any failed one,
    ends [analyze_failure] with the [AttributeError] of its missing
    [get]; so does a [details] that is a non-empty string, whose entries
    are its characters. *)
Theorem analyze_failure_entry_not_dict
    (repr : pyval -> string) (fd : gmap string pyval) (w : World)
    (details x : pyval) (pre post : list pyval) :
  fd !! "details" = Some details ->
  PyVal.iterate details = inr (pre ++ x :: post) ->
  Forall not_failed pre ->
  (∀ d, x ≠ VDict d) ->
  analyze_failure repr fd w
  = Raise (PyVal.AttributeError (PyVal.type_name x) "get")
      (said ("Debugger is analyzing failure: " +:+ repr (VDict fd)) w).
Proof.
  intros Hfd Hit Hpre Hx.
  rewrite analyze_failure_unfold, Hfd, Hit. unfold scan.
  by rewrite (scans_stop_at_other pre x post Hpre Hx).
Qed.

Lemma analyze_failure_entry_not_dict_witness :
  ({[ "details" := VStr "1 failed" ]} : gmap string pyval) !! "details"
  = Some (VStr "1 failed")
  ∧ PyVal.iterate (VStr "1 failed")
    = inr ([] ++ VStr "1" :: PyVal.chars " failed")
  ∧ analyze_failure toy_repr {[ "details" := VStr "1 failed" ]} bare
    = Raise (PyVal.AttributeError "str" "get")
        (said ("Debugger is analyzing failure: "
               +:+ toy_repr (VDict {[ "details" := VStr "1 failed" ]})) bare).
Proof.
  split; [vm_compute; reflexivity|]. split; [reflexivity|].
  apply (analyze_failure_entry_not_dict toy_repr
           {[ "details" := VStr "1 failed" ]} bare (VStr "1 failed")
           (VStr "1") [] (PyVal.chars " failed")).
  - vm_compute; reflexivity.
  - reflexivity.
  - constructor.
  - discriminate.
Defined.

(** X17: a [details] that is [None], a boolean or an integer cannot be
    gone through: [analyze_failure] raises the [TypeError] that names
    its type. *)
Theorem analyze_failure_not_iterable
    (repr : pyval -> string) (fd : gmap string pyval) (w : World)
    (details : pyval) :
  fd !! "details" = Some details ->
  details = VNone ∨ (∃ b, details = VBool b) ∨ (∃ z, details = VInt z) ->
  analyze_failure repr fd w
  = Raise (PyVal.TypeError
             ("'" +:+ PyVal.type_name details +:+ "' object is not iterable"))
      (said ("Debugger is analyzing failure: " +:+ repr (VDict fd)) w).
Proof.
  intros Hfd Hd. rewrite analyze_failure_unfold, Hfd.
  by destruct Hd as [-> | [[b ->] | [z ->]]].
Qed.

Lemma analyze_failure_not_iterable_witness :
  ({[ "details" := VNone ]} : gmap string pyval) !! "details" = Some VNone
  ∧ analyze_failure toy_repr {[ "details" := VNone ]} bare
    = Raise (PyVal.TypeError
               ("'" +:+ PyVal.type_name VNone +:+ "' object is not iterable"))
        (said ("Debugger is analyzing failure: "
               +:+ toy_repr (VDict {[ "details" := VNone ]})) bare).
Proof.
  split; [vm_compute; reflexivity|].
  apply (analyze_failure_not_iterable toy_repr {[ "details" := VNone ]} bare VNone);
    [vm_compute; reflexivity | by left].
Defined.

(** X18: however [analyze_failure] ends, the file system is as before;
    a record it returns has the status ["analysis_complete"] or
    ["no_failures_found"], and carries a report exactly in the first
    case. *)
Theorem analyze_failure_touches_no_file
    (repr : pyval -> string) (fd : gmap string pyval) (w : World) :
  match analyze_failure repr fd w with
  | Ok r w' =>
      cwd w' = cwd w ∧ nodes w' = nodes w
      ∧ ((r !! "status" = Some "analysis_complete"
          ∧ is_Some (r !! "bug_report"))
         ∨ (r !! "status" = Some "no_failures_found"
            ∧ r !! "bug_report" = None))
  | Raise e w' => cwd w' = cwd w ∧ nodes w' = nodes w
  end.
Proof.
  rewrite analyze_failure_unfold.
  assert (no_failures_found !! "status" = Some "no_failures_found"
          ∧ no_failures_found !! "bug_report" = None) as Hno.
  { unfold no_failures_found. split; by simplify_map_eq. }
  destruct (fd !! "details") as [details|]; [|by auto].
  destruct (PyVal.iterate details) as [e|ts]; [done|].
  destruct (scan repr ts) as [e|[report|]]; [done| |by auto].
  destruct (analysis_complete_lookup report) as (H1 & H2 & _).
  split_and!; [done|done|]. left. split; [done|]. by rewrite H2.
Qed.


(** ** The simulated steps and the files *)





(** ** Provisioning before a write *)

(** X21: a call of [_ensure_dirs] right before a writer changes nothing:
    with or without it the writer ends in the same way, with the same
    record or exception and the same world. *)
Theorem ensure_dirs_before_write
    (write : string -> string -> Py (gmap string string))
    (name content : string) (w : World) :
  write = write_test_file ∨ write = write_code_file ->
  (_ensure_dirs ;; write name content) w = write name content w.
Proof.
  intros (base & label & _ & Heq)%writer_cases.
  unfold mbind, Py_bind.
  destruct (_ensure_dirs w) as [[] w1|e w1] eqn:Hens.
  - rewrite (Heq name content w1), (Heq name content w).
    unfold write_in. rewrite Hens.
    apply ensure_dirs_ok_inv in Hens as [Hp ->].
    by rewrite (ensure_dirs_present _ (provision_present _ Hp)).
  - rewrite (Heq name content w). unfold write_in. by rewrite Hens.
Qed.

Lemma ensure_dirs_before_write_witness :
  (_ensure_dirs ;; write_test_file "t.py" "assert True") bare
  = write_test_file "t.py" "assert True" bare.
Proof.
  apply (ensure_dirs_before_write write_test_file "t.py" "assert True" bare).
  by left.
Defined.

